(** * ESP32AudioRecorder: WAV capture to a file, checked against its specification

    Shallow embedding of [main/boards/common/AudioRecorder.h] (the class
    declaration and, after the separator, its implementation).

    The recorder object and the operating system it talks to (C stdio on the
    mounted file system, the FreeRTOS heap and scheduler, the I2S driver, the
    log console) are explicit state.  Everything the environment decides
    (whether a path opens, whether a write is accepted, what each [i2s_read]
    returns, how long an operation takes) is an input of the model. *)

From Stdlib Require Import ZArith Lia.
From Stdlib Require Import Strings.Byte.
From stdpp Require Import base option list gmap strings.

Open Scope Z_scope.

(** ** C integer types of the target

    The ESP32 is an ILP32, little-endian, two's-complement machine: [int] and
    [size_t] have 32 bits, [short] has 16.  Conversions to a signed type and
    signed arithmetic wrap around (what GCC emits for the target). *)

Definition wrap_int (z : Z) : Z := (z + 2147483648) mod 4294967296 - 2147483648.
Definition wrap_short (z : Z) : Z := (z + 32768) mod 65536 - 32768.
Definition wrap_size_t (z : Z) : Z := z mod 4294967296.

Definition INT_MAX : Z := 2147483647.

(** [uint8_t] and [char] are [Byte.byte]. *)
Definition byte_of_Z (z : Z) : byte :=
  default "000"%byte (Byte.of_N (Z.to_N (z mod 256))).
Definition Z_of_byte (b : byte) : Z := Z.of_N (Byte.to_N b).

(** Object representation of a 16-bit and a 32-bit integer, least
    significant byte first. *)
Definition le16 (z : Z) : list byte :=
  [byte_of_Z z; byte_of_Z (z / 256)].
Definition le32 (z : Z) : list byte :=
  [byte_of_Z z; byte_of_Z (z / 256); byte_of_Z (z / 65536);
   byte_of_Z (z / 16777216)].

(** Reading the bytes at offset [off] of a buffer back as integers; bytes
    beyond the end of the buffer read as zero. *)
Definition byte_at (l : list byte) (off : nat) : Z :=
  Z_of_byte (default "000"%byte (l !! off)).
Definition u16_at (l : list byte) (off : nat) : Z :=
  byte_at l off + 256 * byte_at l (off + 1).
Definition u32_at (l : list byte) (off : nat) : Z :=
  byte_at l off + 256 * byte_at l (off + 1) + 65536 * byte_at l (off + 2)
  + 16777216 * byte_at l (off + 3).
Definition short_at (l : list byte) (off : nat) : Z := wrap_short (u16_at l off).
Definition int_at (l : list byte) (off : nat) : Z := wrap_int (u32_at l off).

(** ** struct WavHeader *)

(** [char tag[4]] *)
Definition char4 : Type := byte * byte * byte * byte.

Definition char4_bytes (t : char4) : list byte :=
  let '(a, b, c, d) := t in [a; b; c; d].
Definition char4_at (l : list byte) (off : nat) : char4 :=
  (default "000"%byte (l !! off), default "000"%byte (l !! (off + 1)%nat),
   default "000"%byte (l !! (off + 2)%nat), default "000"%byte (l !! (off + 3)%nat)).

Record WavHeader : Type := mkWavHeader {
  riff_header : char4;       (* "RIFF" *)
  wav_size : Z;              (* int: file size - 8 *)
  wave_header : char4;       (* "WAVE" *)
  fmt_header : char4;        (* "fmt " *)
  fmt_chunk_size : Z;        (* int *)
  audio_format : Z;          (* short *)
  num_channels : Z;          (* short *)
  sample_rate : Z;           (* int *)
  byte_rate : Z;             (* int *)
  sample_alignment : Z;      (* short *)
  bit_depth : Z;             (* short *)
  data_header : char4;       (* "data" *)
  data_bytes : Z             (* int *)
}.

(** Every member sits at a multiple of its own size, so the struct has no
    padding: 4+4+4 + 4+4+2+2+4+4+2+2 + 4+4 bytes. *)
Definition sizeof_WavHeader : nat := 44.

(** The 44 bytes that [fwrite (&header, 1, sizeof (WavHeader), file)] hands
    to the stream. *)
Definition encode_header (h : WavHeader) : list byte :=
  char4_bytes (riff_header h) ++ le32 (wav_size h) ++
  char4_bytes (wave_header h) ++
  char4_bytes (fmt_header h) ++ le32 (fmt_chunk_size h) ++
  le16 (audio_format h) ++ le16 (num_channels h) ++
  le32 (sample_rate h) ++ le32 (byte_rate h) ++
  le16 (sample_alignment h) ++ le16 (bit_depth h) ++
  char4_bytes (data_header h) ++ le32 (data_bytes h).

(** The struct value held by 44 bytes of memory (or by the first 44 bytes of
    a file). *)
Definition decode_header (l : list byte) : WavHeader :=
  {| riff_header := char4_at l 0;
     wav_size := int_at l 4;
     wave_header := char4_at l 8;
     fmt_header := char4_at l 12;
     fmt_chunk_size := int_at l 16;
     audio_format := short_at l 20;
     num_channels := short_at l 22;
     sample_rate := int_at l 24;
     byte_rate := int_at l 28;
     sample_alignment := short_at l 32;
     bit_depth := short_at l 34;
     data_header := char4_at l 36;
     data_bytes := int_at l 40 |}.

Definition set_sizes (data wav : Z) (h : WavHeader) : WavHeader :=
  {| riff_header := riff_header h;
     wav_size := wav;
     wave_header := wave_header h;
     fmt_header := fmt_header h;
     fmt_chunk_size := fmt_chunk_size h;
     audio_format := audio_format h;
     num_channels := num_channels h;
     sample_rate := sample_rate h;
     byte_rate := byte_rate h;
     sample_alignment := sample_alignment h;
     bit_depth := bit_depth h;
     data_header := data_header h;
     data_bytes := data |}.

(** What a header looks like once it has been through its 44 bytes: the
    integer members reduced to their width. *)
Definition header_as_stored (h : WavHeader) : WavHeader :=
  {| riff_header := riff_header h;
     wav_size := wrap_int (wav_size h);
     wave_header := wave_header h;
     fmt_header := fmt_header h;
     fmt_chunk_size := wrap_int (fmt_chunk_size h);
     audio_format := wrap_short (audio_format h);
     num_channels := wrap_short (num_channels h);
     sample_rate := wrap_int (sample_rate h);
     byte_rate := wrap_int (byte_rate h);
     sample_alignment := wrap_short (sample_alignment h);
     bit_depth := wrap_short (bit_depth h);
     data_header := data_header h;
     data_bytes := wrap_int (data_bytes h) |}.

Definition tag_RIFF : char4 := ("R", "I", "F", "F")%byte.
Definition tag_WAVE : char4 := ("W", "A", "V", "E")%byte.
Definition tag_fmt : char4 := ("f", "m", "t", " ")%byte.
Definition tag_data : char4 := ("d", "a", "t", "a")%byte.

(** [i2s_bits_per_sample_t] of driver/i2s.h; the enumerators have the
    number of bits as their value. *)
Inductive i2s_bits_per_sample_t : Type :=
  | I2S_BITS_PER_SAMPLE_8BIT
  | I2S_BITS_PER_SAMPLE_16BIT
  | I2S_BITS_PER_SAMPLE_24BIT
  | I2S_BITS_PER_SAMPLE_32BIT.

Definition bits_value (b : i2s_bits_per_sample_t) : Z :=
  match b with
  | I2S_BITS_PER_SAMPLE_8BIT => 8
  | I2S_BITS_PER_SAMPLE_16BIT => 16
  | I2S_BITS_PER_SAMPLE_24BIT => 24
  | I2S_BITS_PER_SAMPLE_32BIT => 32
  end.

(** ** The environment: files, heap, scheduler, console *)

(** A [FILE] object.  [fopen (path, "wb")] yields a stream that can be
    written but not read.  Streams are modelled unbuffered: what [fwrite]
    accepts is in the file at once. *)
Record FILE : Type := mkFILE {
  f_path : string;
  f_pos : nat;
  f_readable : bool;
  f_error : bool
}.

(** The stdio calls made, in order, with their outcome. *)
Inductive io_call : Type :=
  | Fopen (path : string) (ok : bool)
  | Fwrite (path : string) (pos : nat) (buf : list byte) (written : nat)
  | Fseek (path : string) (off : nat) (ok : bool)
  | Fread (path : string) (want got : nat)
  | Fclose (path : string) (ok : bool).

(** The lines the code sends to the log, one constructor per ESP_LOGx call
    of the source, in source order. *)
Inductive log_line : Type :=
  | LogE_install_failed
  | LogE_set_pin_failed
  | LogI_driver_installed
  | LogE_already_recording
  | LogE_task_create_failed
  | LogI_recording_started (path : string)
  | LogE_not_recording
  | LogI_stopping
  | LogI_recording_stopped (total : Z)
  | LogE_open_failed (path : string)
  | LogE_alloc_failed
  | LogW_read_error
  | LogI_file_saved.

Record World : Type := mkWorld {
  disk : gmap string (list byte);   (* the files of the mounted namespace *)
  can_open : string -> bool;        (* fopen (path, "wb") succeeds *)
  can_create_task : bool;           (* xTaskCreate returns pdPASS *)
  can_malloc : bool;                (* malloc (1024) returns a buffer *)
  sink_faults : list (option nat);  (* outcome of the next fwrite, fseek and
                                       fclose calls: [None] the call succeeds,
                                       [Some k] it fails, an fwrite after
                                       accepting at most [k] bytes; calls
                                       beyond the list succeed *)
  io_trace : list io_call;
  console : list log_line;
  tasks_created : nat
}.

Definition with_disk (d : gmap string (list byte)) (w : World) : World :=
  mkWorld d (can_open w) (can_create_task w) (can_malloc w) (sink_faults w)
          (io_trace w) (console w) (tasks_created w).
Definition pop_fault (w : World) : World :=
  mkWorld (disk w) (can_open w) (can_create_task w) (can_malloc w)
          (tail (sink_faults w)) (io_trace w) (console w) (tasks_created w).
Definition traced (c : io_call) (w : World) : World :=
  mkWorld (disk w) (can_open w) (can_create_task w) (can_malloc w)
          (sink_faults w) (io_trace w ++ [c]) (console w) (tasks_created w).
Definition logged (l : log_line) (w : World) : World :=
  mkWorld (disk w) (can_open w) (can_create_task w) (can_malloc w)
          (sink_faults w) (io_trace w) (console w ++ [l]) (tasks_created w).
Definition task_spawned (w : World) : World :=
  mkWorld (disk w) (can_open w) (can_create_task w) (can_malloc w)
          (sink_faults w) (io_trace w) (console w) (S (tasks_created w)).

(** The fault, if any, that the next sink call meets. *)
Definition next_fault (w : World) : option nat :=
  match sink_faults w with
  | Some k :: _ => Some k
  | _ => None
  end.

Definition file_content (path : string) (w : World) : list byte :=
  default [] (disk w !! path).

(** [fopen (path, "wb")]: creates or truncates the file. *)
Definition fopen_wb (path : string) (w : World) : option FILE * World :=
  if can_open w path
  then (Some (mkFILE path 0 false false),
        traced (Fopen path true) (with_disk (<[path := []]> (disk w)) w))
  else (None, traced (Fopen path false) w).

(** The file after [buf] has been stored at offset [pos]. *)
Definition write_at (pos : nat) (buf old : list byte) : list byte :=
  take pos (old ++ replicate (pos - length old) "000"%byte)
  ++ buf ++ drop (pos + length buf) old.

(** [fwrite (buf, 1, length buf, f)]: returns the number of bytes written. *)
Definition fwrite (buf : list byte) (f : FILE) (w : World) : nat * FILE * World :=
  let accepted :=
    match next_fault w with
    | Some k => Nat.min k (length buf)
    | None => length buf
    end in
  let content := write_at (f_pos f) (take accepted buf) (file_content (f_path f) w) in
  (accepted,
   mkFILE (f_path f) (f_pos f + accepted) (f_readable f)
          (f_error f || (accepted <? length buf)%nat),
   traced (Fwrite (f_path f) (f_pos f) buf accepted)
          (pop_fault (with_disk (<[f_path f := content]> (disk w)) w))).

(** [fseek (f, off, SEEK_SET)] *)
Definition fseek_set (off : nat) (f : FILE) (w : World) : FILE * World :=
  match next_fault w with
  | None => (mkFILE (f_path f) off (f_readable f) (f_error f),
             traced (Fseek (f_path f) off true) (pop_fault w))
  | Some _ => (mkFILE (f_path f) (f_pos f) (f_readable f) true,
               traced (Fseek (f_path f) off false) (pop_fault w))
  end.

(** [fread (buf, 1, want, f)]: returns the bytes obtained.  On a stream that
    was not opened for reading the call fails at once: nothing is read,
    the error indicator is set, the caller's buffer is left as it was. *)
Definition fread (want : nat) (f : FILE) (w : World) : list byte * FILE * World :=
  if f_readable f
  then let got := take want (drop (f_pos f) (file_content (f_path f) w)) in
       (got, mkFILE (f_path f) (f_pos f + length got) (f_readable f) (f_error f),
        traced (Fread (f_path f) want (length got)) w)
  else ([], mkFILE (f_path f) (f_pos f) (f_readable f) true,
        traced (Fread (f_path f) want 0) w).

(** [fclose (f)]: the stream is gone whether or not the call reports an
    error. *)
Definition fclose (f : FILE) (w : World) : World :=
  match next_fault w with
  | None => traced (Fclose (f_path f) true) (pop_fault w)
  | Some _ => traced (Fclose (f_path f) false) (pop_fault w)
  end.

(** What one [i2s_read (port, buffer, 1024, &bytes_read, timeout)] returns:
    [ESP_OK] with the bytes placed in the buffer ([bytes_read] is their
    number; none when the timeout expired first), or an error code. *)
Inductive i2s_result : Type :=
  | I2S_ok (block : list byte)
  | I2S_err.

Definition buffer_size : nat := 1024.

(** ** class ESP32AudioRecorder *)

(** The members of the class.  [m_i2s_port] and [m_pin_config] only select
    the hardware and are left out; [m_file_handle] holds the [FILE] object the
    pointer refers to ([None] is [nullptr]). *)
Record ESP32AudioRecorder : Type := mkRecorder {
  m_sample_rate : Z;
  m_bits_per_sample : i2s_bits_per_sample_t;
  m_filepath : string;
  m_file_handle : option FILE;
  m_recording_task_handle : option nat;
  m_is_recording : bool;
  m_data_bytes_written : Z
}.

Record State : Type := mkState {
  this : ESP32AudioRecorder;
  os : World
}.

Definition set_filepath (p : string) (s : State) : State :=
  let r := this s in
  mkState (mkRecorder (m_sample_rate r) (m_bits_per_sample r) p (m_file_handle r)
             (m_recording_task_handle r) (m_is_recording r) (m_data_bytes_written r))
          (os s).
Definition set_file_handle (h : option FILE) (s : State) : State :=
  let r := this s in
  mkState (mkRecorder (m_sample_rate r) (m_bits_per_sample r) (m_filepath r) h
             (m_recording_task_handle r) (m_is_recording r) (m_data_bytes_written r))
          (os s).
Definition set_recording_task_handle (h : option nat) (s : State) : State :=
  let r := this s in
  mkState (mkRecorder (m_sample_rate r) (m_bits_per_sample r) (m_filepath r)
             (m_file_handle r) h (m_is_recording r) (m_data_bytes_written r))
          (os s).
Definition set_is_recording (b : bool) (s : State) : State :=
  let r := this s in
  mkState (mkRecorder (m_sample_rate r) (m_bits_per_sample r) (m_filepath r)
             (m_file_handle r) (m_recording_task_handle r) b (m_data_bytes_written r))
          (os s).
Definition set_data_bytes_written (n : Z) (s : State) : State :=
  let r := this s in
  mkState (mkRecorder (m_sample_rate r) (m_bits_per_sample r) (m_filepath r)
             (m_file_handle r) (m_recording_task_handle r) (m_is_recording r) n)
          (os s).
Definition set_os (w : World) (s : State) : State := mkState (this s) w.

Definition ESP_LOG (l : log_line) (s : State) : State :=
  set_os (logged l (os s)) s.

(** The stdio calls on [recorder->m_file_handle].  The task only makes them
    while the handle is set; with a null handle nothing is modelled. *)
Definition file_fwrite (buf : list byte) (s : State) : State :=
  match m_file_handle (this s) with
  | Some f => let '(_, f', w') := fwrite buf f (os s) in
              set_file_handle (Some f') (set_os w' s)
  | None => s
  end.
Definition file_fseek (off : nat) (s : State) : State :=
  match m_file_handle (this s) with
  | Some f => let '(f', w') := fseek_set off f (os s) in
              set_file_handle (Some f') (set_os w' s)
  | None => s
  end.
Definition file_fread (want : nat) (s : State) : list byte * State :=
  match m_file_handle (this s) with
  | Some f => let '(got, f', w') := fread want f (os s) in
              (got, set_file_handle (Some f') (set_os w' s))
  | None => ([], s)
  end.
Definition file_fclose (s : State) : State :=
  match m_file_handle (this s) with
  | Some f => set_os (fclose f (os s)) s
  | None => s
  end.

(** The constructor. *)
Definition ESP32AudioRecorder_new : ESP32AudioRecorder :=
  mkRecorder 0 I2S_BITS_PER_SAMPLE_16BIT EmptyString None None false 0.

(** [InstallDriver]; [install_ok] and [set_pin_ok] tell whether
    [i2s_driver_install] and [i2s_set_pin] return [ESP_OK]. *)
Definition InstallDriver (sample_rate : Z) (bits_per_sample : i2s_bits_per_sample_t)
    (install_ok set_pin_ok : bool) (s : State) : bool * State :=
  let r := this s in
  let s1 := mkState (mkRecorder sample_rate bits_per_sample (m_filepath r)
                       (m_file_handle r) (m_recording_task_handle r)
                       (m_is_recording r) (m_data_bytes_written r)) (os s) in
  if negb install_ok then (false, ESP_LOG LogE_install_failed s1)
  else if negb set_pin_ok then (false, ESP_LOG LogE_set_pin_failed s1)
  else (true, ESP_LOG LogI_driver_installed s1).

(** [StartRecording]: does not touch the file; the task it creates does. *)
Definition StartRecording (filepath : string) (s : State) : bool * State :=
  if m_is_recording (this s)
  then (false, ESP_LOG LogE_already_recording s)
  else
    let s1 := set_filepath filepath s in
    let s2 := set_is_recording true s1 in
    let s3 := set_data_bytes_written 0 s2 in
    if can_create_task (os s3)
    then
      let s4 := set_recording_task_handle (Some (tasks_created (os s3)))
                  (set_os (task_spawned (os s3)) s3) in
      (true, ESP_LOG (LogI_recording_started (m_filepath (this s4))) s4)
    else
      let s4 := ESP_LOG LogE_task_create_failed s3 in
      (false, set_is_recording false s4).

(** [StopRecording].  [vTaskDelay] gives the processor away for 200 ms;
    [during_delay] is what the other tasks do to the shared state in that
    time. *)
Definition StopRecording (during_delay : State -> State) (s : State) : bool * State :=
  if negb (m_is_recording (this s))
  then (false, ESP_LOG LogE_not_recording s)
  else
    let s1 := ESP_LOG LogI_stopping s in
    let s2 := set_is_recording false s1 in
    let s3 := match m_recording_task_handle (this s2) with
              | Some _ => during_delay s2
              | None => s2
              end in
    (true, ESP_LOG (LogI_recording_stopped (m_data_bytes_written (this s3))) s3).

Definition IsRecording (s : State) : bool := m_is_recording (this s).

(** The header [write_wav_header] builds.  The local [header] starts
    indeterminate, but every one of its members is assigned before the
    [fwrite]. *)
Definition placeholder_header (r : ESP32AudioRecorder) : WavHeader :=
  let num_channels := 1 in
  let sample_rate := m_sample_rate r in
  let bit_depth := wrap_short (bits_value (m_bits_per_sample r)) in
  let byte_rate := wrap_int (wrap_int (sample_rate * num_channels) * (bit_depth ÷ 8)) in
  let sample_alignment := wrap_short (num_channels * (bit_depth ÷ 8)) in
  {| riff_header := tag_RIFF;
     wav_size := 0;
     wave_header := tag_WAVE;
     fmt_header := tag_fmt;
     fmt_chunk_size := 16;
     audio_format := 1;
     num_channels := num_channels;
     sample_rate := sample_rate;
     byte_rate := byte_rate;
     sample_alignment := sample_alignment;
     bit_depth := bit_depth;
     data_header := tag_data;
     data_bytes := 0 |}.

(** [write_wav_header (recorder->m_file_handle)] *)
Definition write_wav_header (s : State) : State :=
  file_fwrite (encode_header (placeholder_header (this s))) s.

(** [update_wav_header (recorder->m_file_handle, total_data_bytes)].
    [stack] is the content of the 44 bytes of the task's stack in which the
    local [header] is placed: the variable has no initializer.  [fread] stores
    what it obtains over the front of it. *)
Definition update_wav_header (stack : list byte) (total_data_bytes : Z) (s : State) : State :=
  let s1 := file_fseek 0 s in
  let '(got, s2) := file_fread sizeof_WavHeader s1 in
  let header := decode_header (got ++ drop (length got) stack) in
  let header :=
    set_sizes total_data_bytes
      (wrap_int (wrap_size_t (wrap_size_t (total_data_bytes + Z.of_nat sizeof_WavHeader) - 8)))
      header in
  let s3 := file_fseek 0 s2 in
  file_fwrite (encode_header header) s3.

(** [recording_task_function], from its entry to the loop: the flag says
    whether the loop is reached ([false]: the task has deleted itself). *)
Definition task_entry (s : State) : bool * State :=
  let '(h, w1) := fopen_wb (m_filepath (this s)) (os s) in
  let s1 := set_file_handle h (set_os w1 s) in
  match h with
  | None =>
      let s2 := ESP_LOG (LogE_open_failed (m_filepath (this s1))) s1 in
      (false, set_is_recording false s2)
  | Some _ =>
      let s2 := write_wav_header s1 in
      if can_malloc (os s2)
      then (true, set_data_bytes_written 0 s2)
      else
        let s3 := ESP_LOG LogE_alloc_failed s2 in
        let s4 := file_fclose s3 in
        (false, set_is_recording false s4)
  end.

(** The body of the [while] loop, for what [i2s_read] returned. *)
Definition loop_body (rd : i2s_result) (s : State) : State :=
  match rd with
  | I2S_ok block =>
      if (0 <? length block)%nat
      then
        let s1 := file_fwrite block s in
        set_data_bytes_written
          (wrap_int (m_data_bytes_written (this s1) + Z.of_nat (length block))) s1
      else ESP_LOG LogW_read_error s
  | I2S_err => ESP_LOG LogW_read_error s
  end.

(** The [while (recorder->m_is_recording)] loop over the results of the
    successive [i2s_read] calls; the state returned is the one in which the
    flag was found cleared, or the one reached when the results given are
    used up (the task is about to test the flag again). *)
Fixpoint capture_loop (rds : list i2s_result) (s : State) : State :=
  match rds with
  | [] => s
  | rd :: rds' =>
      if m_is_recording (this s) then capture_loop rds' (loop_body rd s) else s
  end.

(** [recording_task_function], from the end of the loop to its end. *)
Definition task_exit (stack : list byte) (s : State) : State :=
  let s1 := update_wav_header stack (m_data_bytes_written (this s)) s in
  let s2 := file_fclose s1 in
  let s3 := set_file_handle None s2 in
  let s4 := ESP_LOG LogI_file_saved s3 in
  set_recording_task_handle None s4.

(** ** Schedules *)

(** A recording session in which the task is given the time it needs: the
    caller starts, the task opens the sink and loops over [rds], the caller
    stops, and during the delay the task finds the flag cleared and runs to
    its end.  (An [i2s_read] under way when the flag is cleared belongs to
    [rds]: the task tests the flag only between two iterations.) *)
Definition session (path : string) (rds : list i2s_result) (stack : list byte)
    (s0 : State) : State :=
  let '(started, s1) := StartRecording path s0 in
  if started
  then
    let '(looping, s2) := task_entry s1 in
    if looping
    then (StopRecording (task_exit stack) (capture_loop rds s2)).2
    else s2
  else s1.

(** The blocks a sequence of reads delivers, and the payload they make. *)
Definition delivers (rd : i2s_result) : option (list byte) :=
  match rd with
  | I2S_ok block => if (0 <? length block)%nat then Some block else None
  | I2S_err => None
  end.
Definition delivered (rds : list i2s_result) : list (list byte) :=
  omap delivers rds.
Definition payload (rds : list i2s_result) : list byte := concat (delivered rds).
Definition total_bytes (rds : list i2s_result) : Z :=
  Z.of_nat (sum_list (length <$> delivered rds)).

(** A read that brings nothing: an error, or a timeout with no byte. *)
Definition no_data (rd : i2s_result) : bool :=
  match rd with
  | I2S_ok block => negb (0 <? length block)%nat
  | I2S_err => true
  end.

(** *** Time

    [vTaskDelay (pdMS_TO_TICKS (200))] ends 200 ms after it began, whatever
    the recording task has done by then.  The work the task still has to do
    is a list of steps, each with the time it takes; the steps that end
    within the delay have happened when the delay is over. *)
Definition stop_delay_ms : nat := 200.
Definition read_timeout_ms : nat := 100.

Fixpoint elapse (budget : nat) (work : list (nat * (State -> State))) (s : State) : State :=
  match work with
  | [] => s
  | (d, step) :: work' =>
      if (d <=? budget)%nat then elapse (budget - d) work' (step s) else s
  end.

(** The two halves of [task_exit]. *)
Definition finalize_header (stack : list byte) (s : State) : State :=
  update_wav_header stack (m_data_bytes_written (this s)) s.
Definition close_and_leave (s : State) : State :=
  let s2 := file_fclose s in
  let s3 := set_file_handle None s2 in
  let s4 := ESP_LOG LogI_file_saved s3 in
  set_recording_task_handle None s4.

(** The work left to the task at the moment the flag is cleared: the
    iteration under way ([i2s_read] returns [rd] after [t_read] ms, at the
    latest when its 100 ms time-out expires; when it brought data, and only
    then, the block is handed to [fwrite], which takes [t_write] ms), then
    rewriting the header ([t_header] ms) and closing the sink ([t_close]
    ms). *)
Record Timing : Type := mkTiming {
  t_read : nat;
  t_write : nat;
  t_header : nat;
  t_close : nat
}.

Definition iteration_ms (tm : Timing) (rd : i2s_result) : nat :=
  (Nat.min (t_read tm) read_timeout_ms + (if no_data rd then 0 else t_write tm))%nat.

Definition work_left (tm : Timing) (rd : i2s_result) (stack : list byte)
    : list (nat * (State -> State)) :=
  [ (iteration_ms tm rd, loop_body rd);
    (t_header tm, finalize_header stack);
    (t_close tm, close_and_leave) ].

Definition StopRecording_timed (tm : Timing) (rd : i2s_result) (stack : list byte)
    (s : State) : bool * State :=
  StopRecording (elapse stop_delay_ms (work_left tm rd stack)) s.

(** The sink is finalized and closed: the recorder holds no stream any more,
    and the last stdio call was the [fclose] that follows the rewriting of
    the header. *)
Definition sink_finalized (s : State) : bool :=
  match m_file_handle (this s), last (io_trace (os s)) with
  | None, Some (Fclose _ _) => true
  | _, _ => false
  end.

(** ** Concrete environments used in the examples *)

Definition healthy_world : World :=
  mkWorld ∅ (fun _ => true) true true [] [] [] 0.

(** A recorder installed for 16000 Hz, 16 bit. *)
Definition recorder_16k : ESP32AudioRecorder :=
  mkRecorder 16000 I2S_BITS_PER_SAMPLE_16BIT EmptyString None None false 0.

Definition idle_16k : State := mkState recorder_16k healthy_world.

(** A namespace in which nothing can be opened (no card mounted). *)
Definition no_card_world : World :=
  mkWorld ∅ (fun _ => false) true true [] [] [] 0.

(** A sink that rejects the first write made after the header. *)
Definition faulty_world : World :=
  mkWorld ∅ (fun _ => true) true true [None; Some 0%nat] [] [] 0.

Definition zero_block (n : nat) : list byte := replicate n "000"%byte.
Definition zero_stack : list byte := replicate 44 "000"%byte.
Definition wav_path : string := "/sdcard/record.wav".

(** ** The state of a session under way

    While the task is in its loop on a sink that accepts what it is given:
    the stream stands at the end of the file, the file holds the header
    [hdr] followed by the payload [pl] written so far, and the counter holds
    the length of [pl]. *)
Definition streaming (path : string) (hdr pl : list byte) (s : State) : Prop :=
  (exists e, m_file_handle (this s) = Some (mkFILE path (length (hdr ++ pl)) false e)) /\
  file_content path (os s) = hdr ++ pl /\
  sink_faults (os s) = [] /\
  m_data_bytes_written (this s) = wrap_int (Z.of_nat (length pl)) /\
  m_is_recording (this s) = true /\
  is_Some (m_recording_task_handle (this s)).

(** The header the task leaves in the file: the members of the local
    variable as the stack had them, and the two sizes. *)
Definition final_header (stack : list byte) (total : Z) : WavHeader :=
  set_sizes total
    (wrap_int (wrap_size_t (wrap_size_t (total + Z.of_nat sizeof_WavHeader) - 8)))
    (decode_header stack).

(** A caller that can start a session on [path] with a sink in order. *)
Definition ready (path : string) (s : State) : Prop :=
  m_is_recording (this s) = false /\
  can_create_task (os s) = true /\
  can_open (os s) path = true /\
  can_malloc (os s) = true /\
  sink_faults (os s) = [].

(** The buffers handed to [fwrite] at offset 0 of [path], in order: the
    writes of the header record. *)
Definition header_writes (path : string) (tr : list io_call) : list (list byte) :=
  omap (fun c => match c with
                 | Fwrite p 0 buf _ => if String.eqb p path then Some buf else None
                 | _ => None
                 end) tr.

(** A recording of 2^31 - 1 bytes: 2097151 full buffers and one of 1023
    bytes. *)
Definition long_recording : list i2s_result :=
  replicate (Z.to_nat 2097151) (I2S_ok (zero_block 1024)) ++ [I2S_ok (zero_block 1023)].

(** The state in which the examples stop a session: the task is in its loop
    and has stored one full buffer. *)
Definition recording_16k : State :=
  capture_loop [I2S_ok (zero_block 1024)]
    (task_entry (StartRecording wav_path idle_16k).2).2.

(** A header whose integer members have values of their types. *)
Definition header_in_range (h : WavHeader) : Prop :=
  wrap_int (wav_size h) = wav_size h /\
  wrap_int (fmt_chunk_size h) = fmt_chunk_size h /\
  wrap_short (audio_format h) = audio_format h /\
  wrap_short (num_channels h) = num_channels h /\
  wrap_int (sample_rate h) = sample_rate h /\
  wrap_int (byte_rate h) = byte_rate h /\
  wrap_short (sample_alignment h) = sample_alignment h /\
  wrap_short (bit_depth h) = bit_depth h /\
  wrap_int (data_bytes h) = data_bytes h.

(** The [fwrite] calls that store [blocks] one after the other from offset
    [pos] on, each accepted in full. *)
Fixpoint block_writes (path : string) (pos : nat) (blocks : list (list byte))
    : list io_call :=
  match blocks with
  | [] => []
  | b :: bs => Fwrite path pos b (length b) :: block_writes path (pos + length b) bs
  end.

(** The sink of a session, open and in order, whatever the flag says: the
    part of [streaming] that concerns the file. *)
Definition open_sink (path : string) (hdr pl : list byte) (s : State) : Prop :=
  (exists e, m_file_handle (this s) = Some (mkFILE path (length (hdr ++ pl)) false e)) /\
  file_content path (os s) = hdr ++ pl /\
  sink_faults (os s) = [] /\
  m_data_bytes_written (this s) = wrap_int (Z.of_nat (length pl)).

(** [w'] answers the code as [w] does: the same paths open, task and buffer
    are granted alike, and a sink that met no fault meets none. *)
Definition same_env (w w' : World) : Prop :=
  can_open w' = can_open w /\
  can_create_task w' = can_create_task w /\
  can_malloc w' = can_malloc w /\
  (sink_faults w = [] -> sink_faults w' = []).

(** ** class CompactWifiBoard (main/boards/bread-compact-wifi/compact_wifi_board.cc) *)

(** What a button handler asks of the codec and of the display. *)
Inductive notification : Type :=
  | Notify_volume (volume : Z)     (* Lang::Strings::VOLUME + std::to_string (volume) *)
  | Notify_max_volume              (* Lang::Strings::MAX_VOLUME *)
  | Notify_muted.                  (* Lang::Strings::MUTED *)

(** The handlers installed by [InitializeButtons] on the two volume buttons.
    [output_volume] is what [codec->output_volume ()] returns, an [int]; the
    result is the argument of [SetOutputVolume] and the notification shown.
    The sum and the difference are those of the integers: they are the
    handler's [volume] as long as they are values of [int]
    ([volume_up_defined], [volume_down_defined]); beyond that the C++
    arithmetic is undefined and the handlers are not modelled. *)
Definition volume_up_defined (output_volume : Z) : Prop :=
  -2147483648 <= output_volume /\ output_volume + 10 <= INT_MAX.
Definition volume_down_defined (output_volume : Z) : Prop :=
  -2147483648 <= output_volume - 10 /\ output_volume <= INT_MAX.

Definition volume_up_OnClick (output_volume : Z) : Z * notification :=
  let volume := output_volume + 10 in
  let volume := if 100 <? volume then 100 else volume in
  (volume, Notify_volume volume).
Definition volume_up_OnLongPress : Z * notification := (100, Notify_max_volume).
Definition volume_down_OnClick (output_volume : Z) : Z * notification :=
  let volume := output_volume - 10 in
  let volume := if volume <? 0 then 0 else volume in
  (volume, Notify_volume volume).
Definition volume_down_OnLongPress : Z * notification := (0, Notify_muted).

(** [esp_err_t] *)
Definition ESP_OK : Z := 0.
Definition ESP_FAIL : Z := -1.

(** The driver calls that concern the SD card, and the log lines of the
    board. *)
Inductive sd_call : Type :=
  | Spi_bus_initialize (ret : Z)
  | Sdmmc_mount (ret : Z)
  | Spi_bus_free
  | Sdmmc_card_print_info
  | Sdcard_unmount.

Inductive board_log : Type :=
  | BLogI_initializing_sd
  | BLogE_spi_bus_failed (ret : Z)
  | BLogI_mounting
  | BLogE_mount_failed
  | BLogE_card_init_failed (ret : Z)
  | BLogI_sd_mounted
  | BLogI_sd_unmounted
  | BLogI_spi_bus_freed.

Record Board : Type := mkBoard {
  sd_card_ : option nat;          (* sdmmc_card_t *: [None] is [nullptr] *)
  sd_calls : list sd_call;
  board_console : list board_log
}.

Definition Board_new : Board := mkBoard None [] [].

Definition sd_do (c : sd_call) (b : Board) : Board :=
  mkBoard (sd_card_ b) (sd_calls b ++ [c]) (board_console b).
Definition sd_log (l : board_log) (b : Board) : Board :=
  mkBoard (sd_card_ b) (sd_calls b) (board_console b ++ [l]).
Definition set_sd_card (c : option nat) (b : Board) : Board :=
  mkBoard c (sd_calls b) (board_console b).

(** [InitializeSdCard].  [bus_ret] is what [spi_bus_initialize] returns,
    [mount_ret] what [esp_vfs_fat_sdmmc_mount] returns; the mount stores the
    card [card] through its last argument when it succeeds. *)
Definition InitializeSdCard (bus_ret mount_ret : Z) (card : nat) (b : Board) : Board :=
  let b := sd_log BLogI_initializing_sd b in
  let b := sd_do (Spi_bus_initialize bus_ret) b in
  if negb (bus_ret =? ESP_OK)
  then sd_log (BLogE_spi_bus_failed bus_ret) b
  else
    let b := sd_log BLogI_mounting b in
    let b := sd_do (Sdmmc_mount mount_ret) b in
    let b := if mount_ret =? ESP_OK then set_sd_card (Some card) b else b in
    if negb (mount_ret =? ESP_OK)
    then
      let b := if mount_ret =? ESP_FAIL
               then sd_log BLogE_mount_failed b
               else sd_log (BLogE_card_init_failed mount_ret) b in
      sd_do Spi_bus_free b
    else
      let b := sd_log BLogI_sd_mounted b in
      sd_do Sdmmc_card_print_info b.

(** [~CompactWifiBoard] *)
Definition Board_delete (b : Board) : Board :=
  let b := match sd_card_ b with
           | Some _ => sd_log BLogI_sd_unmounted (sd_do Sdcard_unmount b)
           | None => b
           end in
  sd_log BLogI_spi_bus_freed (sd_do Spi_bus_free b).

Definition is_bus_free (c : sd_call) : bool :=
  match c with Spi_bus_free => true | _ => false end.
Definition is_bus_acquired (c : sd_call) : bool :=
  match c with Spi_bus_initialize ret => ret =? ESP_OK | _ => false end.
Definition is_unmount (c : sd_call) : bool :=
  match c with Sdcard_unmount => true | _ => false end.
Definition is_mounted (c : sd_call) : bool :=
  match c with Sdmmc_mount ret => ret =? ESP_OK | _ => false end.

(** * Properties *)

(** ** Integers and bytes *)

Lemma wrap_int_small (z : Z) :
  -2147483648 <= z <= 2147483647 -> wrap_int z = z.
Proof. unfold wrap_int. intros H. rewrite Z.mod_small; lia. Qed.

Lemma wrap_int_range (z : Z) : -2147483648 <= wrap_int z <= 2147483647.
Proof.
  unfold wrap_int.
  pose proof (Z.mod_pos_bound (z + 2147483648) 4294967296). lia.
Qed.

Lemma wrap_int_idem (z : Z) : wrap_int (wrap_int z) = wrap_int z.
Proof. apply wrap_int_small, wrap_int_range. Qed.

Lemma wrap_int_mod (z : Z) : wrap_int (z mod 4294967296) = wrap_int z.
Proof.
  unfold wrap_int. f_equal.
  rewrite Zplus_mod_idemp_l. reflexivity.
Qed.

Lemma wrap_int_add_l (a b : Z) : wrap_int (wrap_int a + b) = wrap_int (a + b).
Proof.
  unfold wrap_int. f_equal.
  replace ((a + 2147483648) mod 4294967296 - 2147483648 + b + 2147483648)
    with ((a + 2147483648) mod 4294967296 + b) by lia.
  rewrite Zplus_mod_idemp_l. f_equal. lia.
Qed.

Lemma wrap_short_small (z : Z) : -32768 <= z <= 32767 -> wrap_short z = z.
Proof. unfold wrap_short. intros H. rewrite Z.mod_small; lia. Qed.

Lemma wrap_short_range (z : Z) : -32768 <= wrap_short z <= 32767.
Proof.
  unfold wrap_short. pose proof (Z.mod_pos_bound (z + 32768) 65536). lia.
Qed.

Lemma wrap_short_idem (z : Z) : wrap_short (wrap_short z) = wrap_short z.
Proof. apply wrap_short_small, wrap_short_range. Qed.

Lemma wrap_short_mod (z : Z) : wrap_short (z mod 65536) = wrap_short z.
Proof. unfold wrap_short. f_equal. rewrite Zplus_mod_idemp_l. reflexivity. Qed.

(** The size [update_wav_header] stores in [wav_size]: the sum is formed in
    [size_t] and converted to [int]. *)
Lemma wav_size_expr (total : Z) :
  wrap_int (wrap_size_t (wrap_size_t (total + Z.of_nat sizeof_WavHeader) - 8))
  = wrap_int (total + 36).
Proof.
  unfold wrap_size_t, sizeof_WavHeader.
  rewrite wrap_int_mod.
  rewrite <- (wrap_int_mod (_ - 8)), Zminus_mod_idemp_l, wrap_int_mod.
  f_equal. lia.
Qed.

Lemma Z_of_byte_of_Z (z : Z) : Z_of_byte (byte_of_Z z) = z mod 256.
Proof.
  unfold Z_of_byte, byte_of_Z.
  pose proof (Z.mod_pos_bound z 256 ltac:(lia)) as Hb.
  pose proof (Byte.to_of_N_option_map (Z.to_N (z mod 256))) as Ho.
  destruct (Byte.of_N (Z.to_N (z mod 256))) as [b|]; simpl in *.
  - destruct (Z.to_N (z mod 256) <=? 255)%N eqn:E; [|discriminate].
    injection Ho as ->. lia.
  - destruct (Z.to_N (z mod 256) <=? 255)%N eqn:E; [discriminate|].
    apply N.leb_gt in E. lia.
Qed.

Lemma bytes_u16 (z : Z) :
  z mod 256 + 256 * ((z / 256) mod 256) = z mod 65536.
Proof.
  pose proof (Z.div_mod z 256 ltac:(lia)).
  pose proof (Z.div_mod (z / 256) 256 ltac:(lia)).
  pose proof (Z.mod_pos_bound z 256 ltac:(lia)).
  pose proof (Z.mod_pos_bound (z / 256) 256 ltac:(lia)).
  apply (Z.mod_unique_pos z 65536 (z / 256 / 256)); lia.
Qed.

Lemma bytes_u32 (z : Z) :
  z mod 256 + 256 * ((z / 256) mod 256) + 65536 * ((z / 65536) mod 256)
  + 16777216 * ((z / 16777216) mod 256) = z mod 4294967296.
Proof.
  replace (z / 65536) with (z / 256 / 256)
    by (rewrite Z.div_div by lia; reflexivity).
  replace (z / 16777216) with (z / 256 / 256 / 256)
    by (rewrite !Z.div_div by lia; reflexivity).
  pose proof (Z.div_mod z 256 ltac:(lia)).
  pose proof (Z.div_mod (z / 256) 256 ltac:(lia)).
  pose proof (Z.div_mod (z / 256 / 256) 256 ltac:(lia)).
  pose proof (Z.div_mod (z / 256 / 256 / 256) 256 ltac:(lia)).
  pose proof (Z.mod_pos_bound z 256 ltac:(lia)).
  pose proof (Z.mod_pos_bound (z / 256) 256 ltac:(lia)).
  pose proof (Z.mod_pos_bound (z / 256 / 256) 256 ltac:(lia)).
  pose proof (Z.mod_pos_bound (z / 256 / 256 / 256) 256 ltac:(lia)).
  apply (Z.mod_unique_pos z 4294967296 (z / 256 / 256 / 256 / 256)); lia.
Qed.

(** ** The header record and its 44 bytes *)

Lemma length_encode_header (h : WavHeader) :
  length (encode_header h) = sizeof_WavHeader.
Proof.
  destruct h as [[[[? ?] ?] ?] ? [[[? ?] ?] ?] [[[? ?] ?] ?] ? ? ? ? ? ? ? [[[? ?] ?] ?] ?].
  reflexivity.
Qed.

Lemma decode_encode_header (h : WavHeader) (rest : list byte) :
  decode_header (encode_header h ++ rest) = header_as_stored h.
Proof.
  destruct h as [[[[? ?] ?] ?] ? [[[? ?] ?] ?] [[[? ?] ?] ?] ? ? ? ? ? ? ? [[[? ?] ?] ?] ?].
  unfold decode_header, header_as_stored, encode_header, int_at, short_at,
    u32_at, u16_at, byte_at, char4_at, char4_bytes, le32, le16.
  cbn [app lookup list_lookup default from_option Nat.add
       riff_header wav_size wave_header fmt_header fmt_chunk_size audio_format
       num_channels sample_rate byte_rate sample_alignment bit_depth
       data_header data_bytes id].
  rewrite !Z_of_byte_of_Z, !bytes_u32, !bytes_u16, !wrap_int_mod, !wrap_short_mod.
  reflexivity.
Qed.

(** ** stdio on a sink in order *)

Lemma write_at_end (old buf : list byte) :
  write_at (length old) buf old = old ++ buf.
Proof.
  unfold write_at.
  rewrite Nat.sub_diag, app_nil_r, take_ge, drop_ge, app_nil_r by lia.
  reflexivity.
Qed.

Lemma write_at_front (hdr' hdr pl : list byte) :
  length hdr' = length hdr -> write_at 0 hdr' (hdr ++ pl) = hdr' ++ pl.
Proof.
  intros Hl. unfold write_at.
  rewrite take_0, Nat.add_0_l, Hl, drop_app_length. reflexivity.
Qed.

Lemma file_content_insert (path : string) (c : list byte) (w : World) :
  file_content path (with_disk (<[path := c]> (disk w)) w) = c.
Proof. unfold file_content. cbn. rewrite lookup_insert_eq. reflexivity. Qed.

Lemma payload_cons (rd : i2s_result) (rds : list i2s_result) :
  payload (rd :: rds) = default [] (delivers rd) ++ payload rds.
Proof.
  unfold payload, delivered. cbn [omap list_omap].
  destruct (delivers rd); reflexivity.
Qed.

Lemma payload_app (r1 r2 : list i2s_result) :
  payload (r1 ++ r2) = payload r1 ++ payload r2.
Proof.
  induction r1 as [|rd r1 IH]; [reflexivity|].
  rewrite <- app_comm_cons, !payload_cons, IH, app_assoc.
  reflexivity.
Qed.

Lemma total_bytes_payload (rds : list i2s_result) :
  total_bytes rds = Z.of_nat (length (payload rds)).
Proof.
  unfold total_bytes, payload. f_equal.
  induction (delivered rds) as [|b bs IH]; cbn; [reflexivity|].
  rewrite length_app, IH. reflexivity.
Qed.

Lemma delivers_no_data (rd : i2s_result) :
  no_data rd = true -> delivers rd = None.
Proof.
  destruct rd as [block|]; [|reflexivity].
  unfold no_data, delivers. destruct (0 <? length block)%nat; [discriminate|reflexivity].
Qed.

Lemma payload_no_data (rds : list i2s_result) :
  forallb no_data rds = true -> payload rds = [].
Proof.
  induction rds as [|rd rds IH]; [reflexivity|].
  cbn [forallb]. intros [H1 H2]%andb_prop.
  rewrite payload_cons, (IH H2), (delivers_no_data _ H1). reflexivity.
Qed.

(** ** The loop on a sink in order *)

Lemma loop_body_streaming (path : string) (hdr pl : list byte) (rd : i2s_result) (s : State) :
  streaming path hdr pl s ->
  streaming path hdr (pl ++ default [] (delivers rd)) (loop_body rd s).
Proof.
  intros ([e He] & Hc & Hf & Hn & Hr & Ht).
  assert (Hnone : streaming path hdr (pl ++ []) (ESP_LOG LogW_read_error s)).
  { rewrite app_nil_r. repeat split; try assumption. exists e. exact He. }
  destruct rd as [block|]; cbn [loop_body delivers]; [|exact Hnone].
  destruct (0 <? length block)%nat; [|exact Hnone].
  cbn [default from_option id].
  unfold file_fwrite. rewrite He. unfold fwrite, next_fault. rewrite Hf.
  cbn [f_path f_pos f_readable f_error].
  rewrite Hc, firstn_all, write_at_end, Nat.ltb_irrefl, orb_false_r.
  unfold streaming. cbn [this os set_data_bytes_written set_file_handle set_os
    m_file_handle m_data_bytes_written m_is_recording m_recording_task_handle].
  repeat split.
  - exists e. do 2 f_equal. rewrite !length_app. lia.
  - unfold file_content. cbn [disk traced pop_fault with_disk].
    rewrite lookup_insert_eq. cbn [default from_option id].
    rewrite app_assoc. reflexivity.
  - cbn. rewrite Hf. reflexivity.
  - rewrite Hn, wrap_int_add_l, length_app, Nat2Z.inj_add. reflexivity.
  - exact Hr.
  - exact Ht.
Qed.

Lemma capture_loop_streaming (path : string) (hdr : list byte) (rds : list i2s_result) :
  forall (pl : list byte) (s : State),
    streaming path hdr pl s ->
    streaming path hdr (pl ++ payload rds) (capture_loop rds s).
Proof.
  induction rds as [|rd rds IH]; intros pl s Hs.
  - cbn. rewrite app_nil_r. exact Hs.
  - cbn [capture_loop].
    destruct Hs as (He & Hc & Hf & Hn & Hr & Ht) eqn:E. rewrite Hr.
    rewrite payload_cons, app_assoc.
    apply IH, loop_body_streaming. exact Hs.
Qed.

(** The console is only ever extended, and the loop puts nothing but read
    warnings on it. *)
Lemma loop_body_console (rd : i2s_result) (s : State) :
  console (os (loop_body rd s)) = console (os s) ++
    (if no_data rd then [LogW_read_error] else []).
Proof.
  destruct rd as [block|]; cbn [loop_body no_data]; [|reflexivity].
  destruct (0 <? length block)%nat; cbn [negb]; [|reflexivity].
  rewrite app_nil_r. unfold file_fwrite.
  destruct (m_file_handle (this s)) as [f|]; [|reflexivity].
  unfold fwrite. destruct (next_fault (os s)); reflexivity.
Qed.

(** No outcome of a read or of a write makes the loop body touch the flag. *)
Lemma loop_body_flag (rd : i2s_result) (s : State) :
  m_is_recording (this (loop_body rd s)) = m_is_recording (this s).
Proof.
  destruct rd as [block|]; cbn [loop_body]; [|reflexivity].
  destruct (0 <? length block)%nat; [|reflexivity].
  unfold file_fwrite. destruct (m_file_handle (this s)) as [f|]; [|reflexivity].
  unfold fwrite. destruct (next_fault (os s)); reflexivity.
Qed.

(** ** Starting and stopping on a sink in order *)

Lemma StartRecording_ready (path : string) (s : State) :
  ready path s ->
  exists s1,
    StartRecording path s = (true, s1) /\
    m_filepath (this s1) = path /\
    m_is_recording (this s1) = true /\
    is_Some (m_recording_task_handle (this s1)) /\
    m_file_handle (this s1) = m_file_handle (this s) /\
    m_sample_rate (this s1) = m_sample_rate (this s) /\
    m_bits_per_sample (this s1) = m_bits_per_sample (this s) /\
    disk (os s1) = disk (os s) /\
    io_trace (os s1) = io_trace (os s) /\
    can_open (os s1) = can_open (os s) /\
    can_malloc (os s1) = can_malloc (os s) /\
    sink_faults (os s1) = sink_faults (os s).
Proof.
  intros (Hr & Ht & Ho & Hm & Hf).
  unfold StartRecording. rewrite Hr. cbn. rewrite Ht.
  eexists. split; [reflexivity|]. cbn. repeat split. eexists; reflexivity.
Qed.

Lemma task_entry_streaming (s : State) :
  m_is_recording (this s) = true ->
  is_Some (m_recording_task_handle (this s)) ->
  can_open (os s) (m_filepath (this s)) = true ->
  can_malloc (os s) = true ->
  sink_faults (os s) = [] ->
  exists s2,
    task_entry s = (true, s2) /\
    streaming (m_filepath (this s)) (encode_header (placeholder_header (this s))) [] s2.
Proof.
  intros Hr Ht Ho Hm Hf.
  unfold task_entry, fopen_wb. rewrite Ho.
  unfold write_wav_header, file_fwrite.
  cbn [this os set_file_handle set_os m_file_handle].
  unfold fwrite, next_fault.
  cbn [sink_faults traced with_disk f_path f_pos f_readable f_error]. rewrite Hf.
  cbn [can_malloc os set_os set_file_handle traced pop_fault with_disk]. rewrite Hm.
  eexists. split; [reflexivity|].
  unfold streaming.
  cbn [this os set_data_bytes_written set_file_handle set_os m_file_handle
       m_data_bytes_written m_is_recording m_recording_task_handle
       sink_faults].
  rewrite app_nil_r, firstn_all, Nat.ltb_irrefl.
  repeat split.
  - eexists. cbn. reflexivity.
  - unfold file_content. cbn [disk traced pop_fault with_disk].
    rewrite !lookup_insert_eq. cbn [default from_option id].
    unfold write_at. rewrite take_0, drop_nil, app_nil_r.
    reflexivity.
  - cbn. rewrite ?Hf. reflexivity.
  - exact Hr.
  - exact Ht.
Qed.

Lemma task_exit_result (path : string) (hdr pl stack : list byte) (pos : nat)
    (e : bool) (s : State) :
  m_file_handle (this s) = Some (mkFILE path pos false e) ->
  file_content path (os s) = hdr ++ pl ->
  length hdr = sizeof_WavHeader ->
  sink_faults (os s) = [] ->
  file_content path (os (task_exit stack s))
    = encode_header (final_header stack (m_data_bytes_written (this s))) ++ pl /\
  m_file_handle (this (task_exit stack s)) = None /\
  m_recording_task_handle (this (task_exit stack s)) = None /\
  m_is_recording (this (task_exit stack s)) = m_is_recording (this s) /\
  m_data_bytes_written (this (task_exit stack s)) = m_data_bytes_written (this s) /\
  sink_finalized (task_exit stack s) = true.
Proof.
  intros He Hc Hl Hf.
  unfold task_exit, update_wav_header, file_fseek. rewrite He.
  unfold fseek_set, next_fault. rewrite Hf.
  unfold file_fread.
  cbn [this os set_file_handle set_os m_file_handle fread f_readable f_path f_pos f_error].
  cbn [app length drop].
  unfold file_fseek.
  cbn [this os set_file_handle set_os m_file_handle].
  unfold fseek_set, next_fault.
  cbn [sink_faults traced pop_fault tail]. rewrite Hf.
  cbn [tail f_path f_pos f_readable f_error].
  unfold file_fwrite.
  cbn [this os set_file_handle set_os m_file_handle].
  unfold fwrite, next_fault.
  cbn [sink_faults traced pop_fault tail f_path f_pos f_readable f_error].
  rewrite Hf. cbn [tail].
  unfold file_fclose.
  cbn [this os set_file_handle set_os m_file_handle].
  unfold fclose, next_fault.
  cbn [sink_faults traced pop_fault with_disk tail f_path].
  rewrite Hf. cbn [tail].
  fold (final_header stack (m_data_bytes_written (this s))).
  repeat split.
  - unfold file_content in *.
    cbn [os this ESP_LOG set_recording_task_handle set_file_handle set_os
         logged traced pop_fault with_disk disk].
    rewrite lookup_insert_eq. cbn [default from_option id].
    rewrite Hc, firstn_all, write_at_front; [reflexivity|].
    rewrite length_encode_header, Hl. reflexivity.
  - unfold sink_finalized.
    cbn [os this ESP_LOG set_recording_task_handle set_file_handle set_os
         logged traced pop_fault with_disk io_trace m_file_handle].
    rewrite last_snoc. reflexivity.
Qed.

(** The outcome of a session on a sink in order, whatever the reads and the
    stack were. *)
Lemma session_result (path : string) (rds : list i2s_result) (stack : list byte)
    (s0 : State) :
  ready path s0 ->
  let s := session path rds stack s0 in
  file_content path (os s)
    = encode_header (final_header stack (wrap_int (total_bytes rds))) ++ payload rds /\
  m_file_handle (this s) = None /\
  m_is_recording (this s) = false /\
  m_data_bytes_written (this s) = wrap_int (total_bytes rds) /\
  sink_finalized s = true.
Proof.
  intros Hready.
  destruct (StartRecording_ready path s0 Hready)
    as (s1 & Hs1 & Hp & Hr & Ht & _ & _ & _ & _ & _ & Ho & Hm & Hf).
  destruct Hready as (_ & _ & Ho0 & Hm0 & Hf0).
  rewrite Hm0 in Hm. rewrite Hf0 in Hf.
  assert (Ho1 : can_open (os s1) (m_filepath (this s1)) = true)
    by (rewrite Ho, Hp; exact Ho0).
  destruct (task_entry_streaming s1 Hr Ht Ho1 Hm Hf) as (s2 & Hs2 & Hstr).
  rewrite Hp in Hstr.
  pose proof (capture_loop_streaming _ _ rds _ _ Hstr) as Hloop.
  cbn [app] in Hloop.
  unfold session. rewrite Hs1, Hs2.
  set (s3 := capture_loop rds s2) in *.
  destruct Hloop as ([e He] & Hc & Hf3 & Hn & Hr3 & [h Ht3]).
  unfold StopRecording. rewrite Hr3. cbn [negb snd].
  cbn [this set_is_recording ESP_LOG set_os m_recording_task_handle].
  rewrite Ht3.
  match goal with |- context [task_exit stack ?s] => set (s4 := s) end.
  destruct (task_exit_result path _ _ stack _ e s4 He Hc
              (length_encode_header _) Hf3)
    as (Hc5 & He5 & Ht5 & Hr5 & Hn5 & Hfin).
  cbn zeta.
  change (m_data_bytes_written (this s4)) with (m_data_bytes_written (this s3)) in *.
  rewrite Hn, <- total_bytes_payload in Hc5, Hn5.
  repeat split; assumption.
Qed.

(** ** Rejected calls *)

(** C8: a call made in the wrong state is rejected on the spot and leaves
    everything as it was.  [StartRecording] while a session is under way
    returns [false]; the recorder (flag, counter, path, stream), the files,
    and the record of stdio calls are what they were.  [StopRecording] while
    no session is under way returns [false] without waiting and without any
    stdio call.  The one thing either call does is send its error line to the
    log. *)
Theorem C8_rejected_calls_change_nothing (path : string) (bg : State -> State) (s : State) :
  (m_is_recording (this s) = true ->
     (StartRecording path s).1 = false /\
     this (StartRecording path s).2 = this s /\
     disk (os (StartRecording path s).2) = disk (os s) /\
     io_trace (os (StartRecording path s).2) = io_trace (os s) /\
     sink_faults (os (StartRecording path s).2) = sink_faults (os s) /\
     tasks_created (os (StartRecording path s).2) = tasks_created (os s) /\
     console (os (StartRecording path s).2) = console (os s) ++ [LogE_already_recording]) /\
  (m_is_recording (this s) = false ->
     (StopRecording bg s).1 = false /\
     this (StopRecording bg s).2 = this s /\
     disk (os (StopRecording bg s).2) = disk (os s) /\
     io_trace (os (StopRecording bg s).2) = io_trace (os s) /\
     sink_faults (os (StopRecording bg s).2) = sink_faults (os s) /\
     tasks_created (os (StopRecording bg s).2) = tasks_created (os s) /\
     console (os (StopRecording bg s).2) = console (os s) ++ [LogE_not_recording]).
Proof.
  split; intros Hr.
  - unfold StartRecording. rewrite Hr. cbn. repeat split.
  - unfold StopRecording. rewrite Hr. cbn. repeat split.
Qed.

(** A session under way on a sink in order, after one block of three bytes. *)
Lemma C8_witness :
  let s := capture_loop [I2S_ok (zero_block 3)]
             (task_entry (StartRecording wav_path idle_16k).2).2 in
  m_is_recording (this s) = true /\
  (StartRecording "/sdcard/other.wav" s).1 = false /\
  this (StartRecording "/sdcard/other.wav" s).2 = this s /\
  disk (os (StartRecording "/sdcard/other.wav" s).2) = disk (os s) /\
  m_is_recording (this idle_16k) = false /\
  (StopRecording id idle_16k).1 = false /\
  io_trace (os (StopRecording id idle_16k).2) = io_trace (os idle_16k).
Proof.
  intros s.
  pose proof (C8_rejected_calls_change_nothing "/sdcard/other.wav" id s) as [H1 _].
  pose proof (C8_rejected_calls_change_nothing wav_path id idle_16k) as [_ H2].
  assert (Hs : m_is_recording (this s) = true) by (vm_compute; reflexivity).
  specialize (H1 Hs). specialize (H2 eq_refl).
  destruct H1 as (A1 & A2 & A3 & _). destruct H2 as (B1 & _ & _ & B4 & _).
  split_and!; [exact Hs|exact A1|exact A2|exact A3|exact eq_refl|exact B1|exact B4].
Defined.

(** ** Opening the sink *)

(** C2, as the claim has it, fails: with no card mounted nothing can be
    opened, yet [StartRecording] returns [true] and leaves the recorder in
    the recording state. *)
Lemma C2_counterexample :
  let s := mkState recorder_16k no_card_world in
  can_open (os s) wav_path = false /\
  ~ ((StartRecording wav_path s).1 = false /\
     IsRecording (StartRecording wav_path s).2 = false).
Proof.
  cbn. split; [reflexivity|]. intros [H _]. discriminate H.
Qed.

(** C2, amended: [StartRecording] never opens the destination.  Its result
    is [true] exactly when no session is under way and the task can be
    created, whatever the path.  For a path that cannot be opened it so
    returns [true] with the recorder in the recording state and no stdio call
    made; the task meets the failure when it runs: it logs the error, puts the
    flag back to not recording and ends, no file is created, and a later
    [StopRecording] is rejected. *)
Theorem C2_open_failure_is_met_by_the_task (path : string) (s : State) :
  (StartRecording path s).1
    = negb (m_is_recording (this s)) && can_create_task (os s) /\
  (m_is_recording (this s) = false ->
   can_create_task (os s) = true ->
   can_open (os s) path = false ->
   let s1 := (StartRecording path s).2 in
   let s2 := (task_entry s1).2 in
   (StartRecording path s).1 = true /\
   IsRecording s1 = true /\
   io_trace (os s1) = io_trace (os s) /\
   (task_entry s1).1 = false /\
   IsRecording s2 = false /\
   disk (os s2) = disk (os s) /\
   io_trace (os s2) = io_trace (os s) ++ [Fopen path false] /\
   console (os s2) = console (os s)
                     ++ [LogI_recording_started path; LogE_open_failed path] /\
   forall bg, (StopRecording bg s2).1 = false).
Proof.
  split.
  - unfold StartRecording.
    destruct (m_is_recording (this s)); [reflexivity|].
    cbn. destruct (can_create_task (os s)); reflexivity.
  - intros Hr Ht Ho. unfold StartRecording. rewrite Hr. cbn. rewrite Ht. cbn.
    unfold task_entry, fopen_wb. cbn. rewrite Ho. cbn.
    rewrite <- app_assoc. repeat split.
Qed.

Lemma C2_witness :
  let s := mkState recorder_16k no_card_world in
  m_is_recording (this s) = false /\
  can_create_task (os s) = true /\
  can_open (os s) wav_path = false /\
  (StartRecording wav_path s).1 = true /\
  IsRecording (task_entry (StartRecording wav_path s).2).2 = false.
Proof.
  intros s.
  pose proof (C2_open_failure_is_met_by_the_task wav_path s) as [_ H].
  specialize (H eq_refl eq_refl eq_refl).
  destruct H as (A & _ & _ & _ & B & _).
  split_and!; [exact eq_refl|exact eq_refl|exact eq_refl|exact A|exact B].
Defined.

(** ** Failures of the sink *)

Lemma file_fwrite_this (buf : list byte) (s : State) :
  m_is_recording (this (file_fwrite buf s)) = m_is_recording (this s) /\
  m_data_bytes_written (this (file_fwrite buf s)) = m_data_bytes_written (this s) /\
  m_recording_task_handle (this (file_fwrite buf s)) = m_recording_task_handle (this s) /\
  console (os (file_fwrite buf s)) = console (os s).
Proof.
  unfold file_fwrite. destruct (m_file_handle (this s)) as [f|]; [|repeat split].
  unfold fwrite. destruct (next_fault (os s)); repeat split.
Qed.

Lemma file_fseek_this (off : nat) (s : State) :
  m_is_recording (this (file_fseek off s)) = m_is_recording (this s) /\
  m_data_bytes_written (this (file_fseek off s)) = m_data_bytes_written (this s) /\
  console (os (file_fseek off s)) = console (os s) /\
  (forall f, m_file_handle (this s) = Some f ->
     exists f', m_file_handle (this (file_fseek off s)) = Some f' /\ f_path f' = f_path f).
Proof.
  unfold file_fseek. destruct (m_file_handle (this s)) as [f|].
  - unfold fseek_set. destruct (next_fault (os s)); repeat split;
      intros f0 [= <-]; eexists; split; reflexivity.
  - repeat split. intros f [=].
Qed.

Lemma file_fread_this (want : nat) (s : State) :
  m_is_recording (this (file_fread want s).2) = m_is_recording (this s) /\
  m_data_bytes_written (this (file_fread want s).2) = m_data_bytes_written (this s) /\
  console (os (file_fread want s).2) = console (os s) /\
  (forall f, m_file_handle (this s) = Some f ->
     exists f', m_file_handle (this (file_fread want s).2) = Some f' /\ f_path f' = f_path f).
Proof.
  unfold file_fread. destruct (m_file_handle (this s)) as [f|].
  - unfold fread. destruct (f_readable f); repeat split;
      intros f0 [= <-]; eexists; split; reflexivity.
  - repeat split. intros f [=].
Qed.

Lemma file_fwrite_handle (buf : list byte) (s : State) (f : FILE) :
  m_file_handle (this s) = Some f ->
  exists f', m_file_handle (this (file_fwrite buf s)) = Some f' /\ f_path f' = f_path f.
Proof.
  intros H. unfold file_fwrite. rewrite H.
  unfold fwrite. destruct (next_fault (os s)); eexists; split; reflexivity.
Qed.

(** Whatever the sink does, [update_wav_header] leaves flag, counter and
    console alone and keeps the stream. *)
Lemma update_wav_header_this (stack : list byte) (total : Z) (s : State) :
  m_is_recording (this (update_wav_header stack total s)) = m_is_recording (this s) /\
  m_data_bytes_written (this (update_wav_header stack total s))
    = m_data_bytes_written (this s) /\
  console (os (update_wav_header stack total s)) = console (os s) /\
  (forall f, m_file_handle (this s) = Some f ->
     exists f', m_file_handle (this (update_wav_header stack total s)) = Some f'
                /\ f_path f' = f_path f).
Proof.
  unfold update_wav_header.
  pose proof (file_fseek_this 0 s) as (A1 & A2 & A3 & A4).
  set (s1 := file_fseek 0 s) in *.
  pose proof (file_fread_this sizeof_WavHeader s1) as (B1 & B2 & B3 & B4).
  destruct (file_fread sizeof_WavHeader s1) as [got s2]. cbn [snd] in *.
  pose proof (file_fseek_this 0 s2) as (C1 & C2 & C3 & C4).
  set (s3 := file_fseek 0 s2) in *.
  match goal with |- context [file_fwrite ?b s3] => set (buf := b) end.
  pose proof (file_fwrite_this buf s3) as (D1 & D2 & _ & D4).
  repeat split; try congruence.
  intros f Hf.
  destruct (A4 f Hf) as (f1 & H1 & P1).
  destruct (B4 f1 H1) as (f2 & H2 & P2).
  destruct (C4 f2 H2) as (f3 & H3 & P3).
  destruct (file_fwrite_handle buf s3 f3 H3) as (f4 & H4 & P4).
  exists f4. split; [exact H4|congruence].
Qed.

(** C3, as the claim has it, fails: the sink rejects the write of the first
    block (no byte of it is accepted), and the task goes on as if nothing
    had happened: the flag is still set, nothing but the start message is on
    the console, and the next block is read, handed to [fwrite] and counted
    on top of the lost one. *)
Lemma C3_counterexample :
  let s1 := (task_entry (StartRecording wav_path (mkState recorder_16k faulty_world)).2).2 in
  let s2 := capture_loop [I2S_ok (zero_block 4)] s1 in
  let s3 := capture_loop [I2S_ok (zero_block 6)] s2 in
  last (io_trace (os s2)) = Some (Fwrite wav_path 44 (zero_block 4) 0) /\
  ~ (m_is_recording (this s2) = false) /\
  console (os s2) = [LogI_recording_started wav_path] /\
  last (io_trace (os s3)) = Some (Fwrite wav_path 44 (zero_block 6) 6) /\
  m_data_bytes_written (this s3) = 10 /\
  length (file_content wav_path (os s3)) = (44 + 6)%nat.
Proof.
  vm_compute. split_and!; try reflexivity. discriminate.
Qed.

(** The stdio call each step of the task makes on the stream it holds,
    whatever the sink answers. *)
Lemma file_fseek_call (off : nat) (s : State) (f : FILE) :
  m_file_handle (this s) = Some f ->
  exists ok f',
    m_file_handle (this (file_fseek off s)) = Some f' /\
    f_path f' = f_path f /\
    (ok = true -> f_pos f' = off) /\
    io_trace (os (file_fseek off s)) = io_trace (os s) ++ [Fseek (f_path f) off ok].
Proof.
  intros H. unfold file_fseek. rewrite H. unfold fseek_set.
  destruct (next_fault (os s)).
  - exists false. eexists. split_and!; try reflexivity. discriminate.
  - exists true. eexists. split_and!; reflexivity.
Qed.

Lemma file_fread_call (want : nat) (s : State) (f : FILE) :
  m_file_handle (this s) = Some f ->
  exists f',
    m_file_handle (this (file_fread want s).2) = Some f' /\
    f_path f' = f_path f /\
    io_trace (os (file_fread want s).2)
      = io_trace (os s) ++ [Fread (f_path f) want (length (file_fread want s).1)].
Proof.
  intros H. unfold file_fread. rewrite H. unfold fread.
  destruct (f_readable f); eexists; split_and!; reflexivity.
Qed.

Lemma file_fwrite_call (buf : list byte) (s : State) (f : FILE) :
  m_file_handle (this s) = Some f ->
  exists k f',
    m_file_handle (this (file_fwrite buf s)) = Some f' /\
    f_path f' = f_path f /\
    io_trace (os (file_fwrite buf s))
      = io_trace (os s) ++ [Fwrite (f_path f) (f_pos f) buf k].
Proof.
  intros H. unfold file_fwrite. rewrite H. unfold fwrite.
  destruct (next_fault (os s)); do 2 eexists; split_and!; reflexivity.
Qed.

Lemma file_fclose_call (s : State) (f : FILE) :
  m_file_handle (this s) = Some f ->
  exists ok,
    io_trace (os (file_fclose s)) = io_trace (os s) ++ [Fclose (f_path f) ok].
Proof.
  intros H. unfold file_fclose. rewrite H. unfold fclose.
  destruct (next_fault (os s)); eexists; reflexivity.
Qed.

(** Whatever the sink answers, [update_wav_header] makes its four calls: the
    seek, the read, the seek and the write of one header record, which
    carries the two sizes and goes to offset 0 if the second seek succeeded. *)
Lemma update_wav_header_calls (stack : list byte) (total : Z) (s : State) (f : FILE) :
  m_file_handle (this s) = Some f ->
  exists ok1 got ok2 pos h k,
    io_trace (os (update_wav_header stack total s))
      = io_trace (os s)
        ++ [Fseek (f_path f) 0 ok1; Fread (f_path f) sizeof_WavHeader got;
            Fseek (f_path f) 0 ok2; Fwrite (f_path f) pos (encode_header h) k] /\
    data_bytes h = total /\
    wav_size h = wrap_int (total + 36) /\
    (ok2 = true -> pos = 0%nat).
Proof.
  intros Hf. unfold update_wav_header.
  destruct (file_fseek_call 0 s f Hf) as (ok1 & f1 & H1 & P1 & _ & T1).
  set (s1 := file_fseek 0 s) in *.
  destruct (file_fread_call sizeof_WavHeader s1 f1 H1) as (f2 & H2 & P2 & T2).
  destruct (file_fread sizeof_WavHeader s1) as [got s2]. cbn [fst snd] in H2, T2.
  destruct (file_fseek_call 0 s2 f2 H2) as (ok2 & f3 & H3 & P3 & Q3 & T3).
  set (s3 := file_fseek 0 s2) in *.
  match goal with |- context [file_fwrite (encode_header ?x) s3] => set (h := x) end.
  destruct (file_fwrite_call (encode_header h) s3 f3 H3) as (k & f4 & H4 & P4 & T4).
  exists ok1, (length got), ok2, (f_pos f3), h, k.
  split_and!.
  - rewrite T4, T3, T2, T1, P3, P2, P1, <- !app_assoc. reflexivity.
  - reflexivity.
  - unfold h. cbn [set_sizes wav_size]. apply wav_size_expr.
  - exact Q3.
Qed.

Lemma capture_loop_flag (rds : list i2s_result) :
  forall s, m_is_recording (this (capture_loop rds s)) = m_is_recording (this s).
Proof.
  induction rds as [|rd rds IH]; intros s; cbn [capture_loop]; [reflexivity|].
  destruct (m_is_recording (this s)) eqn:E; [|exact E].
  rewrite IH, loop_body_flag. exact E.
Qed.

(** C3, amended: a failing write, seek or close of the sink is not noticed,
    since no result of [fwrite], [fseek] or [fclose] is looked at.  In the loop,
    whatever the sink does, the flag stays as it is (so the loop, however many
    reads it makes, is ended only by the caller clearing the flag), the
    console receives nothing but the warnings for reads without data, and the
    counter advances by the length of every block read.  Once the flag is
    cleared the task, again whatever the sink does, goes through all of its
    closing calls: a seek to 0, the read of 44 bytes, a seek to 0, the write
    of one header record that carries the counter as [data_bytes] and the
    counter plus 36 as [wav_size] (at offset 0 if the second seek succeeded, at
    the place the stream is left at if it failed), and [fclose] as the last
    call; then it drops the stream and logs that the file was saved.  It
    neither touches the flag nor reports an error. *)
Theorem C3_sink_failures_are_not_noticed (rd : i2s_result) (rds : list i2s_result)
    (stack : list byte) (s : State) :
  m_is_recording (this (loop_body rd s)) = m_is_recording (this s) /\
  m_is_recording (this (capture_loop rds s)) = m_is_recording (this s) /\
  console (os (loop_body rd s))
    = console (os s) ++ (if no_data rd then [LogW_read_error] else []) /\
  m_data_bytes_written (this (loop_body rd s))
    = (if no_data rd then m_data_bytes_written (this s)
       else wrap_int (m_data_bytes_written (this s)
                      + Z.of_nat (length (default [] (delivers rd))))) /\
  (forall f, m_file_handle (this s) = Some f ->
     (exists ok1 got ok2 pos h k ok3,
        io_trace (os (task_exit stack s))
          = io_trace (os s)
            ++ [Fseek (f_path f) 0 ok1; Fread (f_path f) sizeof_WavHeader got;
                Fseek (f_path f) 0 ok2; Fwrite (f_path f) pos (encode_header h) k;
                Fclose (f_path f) ok3] /\
        data_bytes h = m_data_bytes_written (this s) /\
        wav_size h = wrap_int (m_data_bytes_written (this s) + 36) /\
        (ok2 = true -> pos = 0%nat)) /\
     (exists ok, last (io_trace (os (task_exit stack s))) = Some (Fclose (f_path f) ok)) /\
     m_file_handle (this (task_exit stack s)) = None /\
     m_is_recording (this (task_exit stack s)) = m_is_recording (this s) /\
     console (os (task_exit stack s)) = console (os s) ++ [LogI_file_saved]).
Proof.
  split; [apply loop_body_flag|]. split; [apply capture_loop_flag|].
  split; [apply loop_body_console|]. split.
  - destruct rd as [block|]; cbn [loop_body no_data delivers]; [|reflexivity].
    destruct (0 <? length block)%nat; cbn [negb]; [|reflexivity].
    cbn [this set_data_bytes_written m_data_bytes_written default from_option id].
    destruct (file_fwrite_this block s) as (_ & -> & _). reflexivity.
  - intros f Hf. unfold task_exit.
    pose proof (update_wav_header_this stack (m_data_bytes_written (this s)) s)
      as (A1 & A2 & A3 & A4).
    destruct (update_wav_header_calls stack (m_data_bytes_written (this s)) s f Hf)
      as (ok1 & got & ok2 & pos & h & k & T & D & W & P).
    destruct (A4 f Hf) as (f' & Hf' & Hp).
    set (s1 := update_wav_header stack (m_data_bytes_written (this s)) s) in *.
    destruct (file_fclose_call s1 f' Hf') as (ok3 & T3). rewrite Hp in T3.
    assert (Hthis : this (file_fclose s1) = this s1 /\
                    console (os (file_fclose s1)) = console (os s1)).
    { unfold file_fclose. rewrite Hf'. unfold fclose.
      destruct (next_fault (os s1)); split; reflexivity. }
    destruct Hthis as (Hthis & Hcons).
    cbn [this os ESP_LOG set_recording_task_handle set_file_handle set_os
         m_file_handle m_is_recording io_trace console logged].
    rewrite T3, T, Hthis, Hcons, A1, A3, <- app_assoc. cbn [app].
    split_and!.
    + exists ok1, got, ok2, pos, h, k, ok3. split_and!; [reflexivity|exact D|exact W|exact P].
    + exists ok3.
      change [Fseek (f_path f) 0 ok1; Fread (f_path f) sizeof_WavHeader got;
              Fseek (f_path f) 0 ok2; Fwrite (f_path f) pos (encode_header h) k;
              Fclose (f_path f) ok3]
        with ([Fseek (f_path f) 0 ok1; Fread (f_path f) sizeof_WavHeader got;
               Fseek (f_path f) 0 ok2; Fwrite (f_path f) pos (encode_header h) k]
              ++ [Fclose (f_path f) ok3]).
      rewrite app_assoc, last_snoc. reflexivity.
    + reflexivity.
    + reflexivity.
    + reflexivity.
Qed.

Lemma C3_witness :
  let s := capture_loop [I2S_ok (zero_block 4)]
             (task_entry (StartRecording wav_path (mkState recorder_16k faulty_world)).2).2 in
  m_file_handle (this s) = Some (mkFILE wav_path 44 false true) /\
  m_is_recording (this (loop_body (I2S_ok (zero_block 6)) s)) = m_is_recording (this s) /\
  m_file_handle (this (task_exit zero_stack s)) = None /\
  console (os (task_exit zero_stack s)) = console (os s) ++ [LogI_file_saved].
Proof.
  intros s.
  pose proof (C3_sink_failures_are_not_noticed (I2S_ok (zero_block 6)) [] zero_stack s)
    as (A & _ & _ & _ & B).
  assert (Hf : m_file_handle (this s) = Some (mkFILE wav_path 44 false true))
    by (vm_compute; reflexivity).
  specialize (B (mkFILE wav_path 44 false true) Hf).
  destruct B as (_ & _ & B2 & _ & B4).
  split_and!; [exact Hf|exact A|exact B2|exact B4].
Defined.

(** ** Reads that fail *)

(** C6: a read that times out or fails does not end the loop.  In a session
    under way, such a read only puts a warning on the console: the flag is
    still set, the loop goes on to the next iteration, and the block that a
    following read delivers is appended to the file and added to the counter. *)
Theorem C6_failed_read_is_retried (path : string) (hdr pl block : list byte)
    (rd : i2s_result) (rest : list i2s_result) (s : State) :
  streaming path hdr pl s ->
  no_data rd = true ->
  (0 < length block)%nat ->
  let s1 := loop_body rd s in
  let s2 := loop_body (I2S_ok block) s1 in
  console (os s1) = console (os s) ++ [LogW_read_error] /\
  m_is_recording (this s1) = true /\
  capture_loop (rd :: I2S_ok block :: rest) s = capture_loop rest s2 /\
  file_content path (os s2) = file_content path (os s) ++ block /\
  m_data_bytes_written (this s2)
    = wrap_int (m_data_bytes_written (this s) + Z.of_nat (length block)).
Proof.
  intros Hs Hrd Hb s1 s2.
  pose proof (loop_body_streaming path hdr pl rd s Hs) as Hs1.
  rewrite (delivers_no_data rd Hrd) in Hs1. cbn [default from_option id] in Hs1.
  rewrite app_nil_r in Hs1. fold s1 in Hs1.
  pose proof (loop_body_streaming path hdr pl (I2S_ok block) s1 Hs1) as Hs2.
  fold s2 in Hs2. cbn [delivers] in Hs2.
  apply Nat.ltb_lt in Hb. rewrite Hb in Hs2. cbn [default from_option id] in Hs2.
  destruct Hs as (_ & Hc & _ & Hn & Hr & _).
  destruct Hs1 as (_ & _ & _ & _ & Hr1 & _).
  destruct Hs2 as (_ & Hc2 & _ & Hn2 & _ & _).
  split_and!.
  - unfold s1. rewrite loop_body_console, Hrd. reflexivity.
  - exact Hr1.
  - cbn [capture_loop]. rewrite Hr. fold s1. rewrite Hr1. reflexivity.
  - rewrite Hc2, Hc, app_assoc. reflexivity.
  - rewrite Hn2, Hn, wrap_int_add_l, length_app, Nat2Z.inj_add. reflexivity.
Qed.

Lemma C6_witness :
  let s := capture_loop [I2S_ok (zero_block 3)]
             (task_entry (StartRecording wav_path idle_16k).2).2 in
  let block := zero_block 2 in
  streaming wav_path (encode_header (placeholder_header recorder_16k)) (zero_block 3) s /\
  no_data I2S_err = true /\
  (0 < length block)%nat /\
  capture_loop [I2S_err; I2S_ok block] s
    = loop_body (I2S_ok block) (loop_body I2S_err s) /\
  m_data_bytes_written (this (loop_body (I2S_ok block) (loop_body I2S_err s))) = 5.
Proof.
  intros s block.
  assert (Hs : streaming wav_path (encode_header (placeholder_header recorder_16k))
                 (zero_block 3) s).
  { unfold streaming. split_and!.
    - exists false. vm_compute. reflexivity.
    - vm_compute. reflexivity.
    - vm_compute. reflexivity.
    - vm_compute. reflexivity.
    - vm_compute. reflexivity.
    - exists 0%nat. vm_compute. reflexivity. }
  assert (Hb : (0 < length block)%nat) by (vm_compute; lia).
  pose proof (C6_failed_read_is_retried wav_path _ _ block I2S_err [] s Hs
                eq_refl Hb) as (_ & _ & A & _ & B).
  split_and!; [exact Hs|exact eq_refl|exact Hb|exact A|].
  rewrite B. vm_compute. reflexivity.
Defined.

(** ** The sizes in the finished file *)

Lemma session_header (path : string) (rds : list i2s_result) (stack : list byte)
    (s0 : State) :
  ready path s0 ->
  decode_header (file_content path (os (session path rds stack s0)))
    = header_as_stored (final_header stack (wrap_int (total_bytes rds))) /\
  length (file_content path (os (session path rds stack s0)))
    = (sizeof_WavHeader + length (payload rds))%nat /\
  drop sizeof_WavHeader (file_content path (os (session path rds stack s0)))
    = payload rds.
Proof.
  intros Hready.
  destruct (session_result path rds stack s0 Hready) as (Hc & _).
  rewrite Hc. split; [apply decode_encode_header|]. split.
  - rewrite length_app, length_encode_header. reflexivity.
  - rewrite <- (length_encode_header (final_header stack (wrap_int (total_bytes rds)))).
    apply drop_app_length.
Qed.

Lemma final_header_sizes (stack : list byte) (total : Z) :
  data_bytes (header_as_stored (final_header stack total)) = wrap_int total /\
  wav_size (header_as_stored (final_header stack total)) = wrap_int (total + 36).
Proof.
  unfold final_header. cbn [header_as_stored set_sizes data_bytes wav_size].
  rewrite wav_size_expr, wrap_int_idem. split; reflexivity.
Qed.

Lemma total_bytes_nonneg (rds : list i2s_result) : 0 <= total_bytes rds.
Proof. unfold total_bytes. lia. Qed.

(** C5: in a session on a sink in order, the [data_bytes] member of the
    header in the finished file is the sum of the sizes of the blocks the
    reads delivered, and the bytes after the header are those blocks one after
    the other in the order they were read (the sum being one an [int] can
    hold). *)
Theorem C5_data_size_and_payload (path : string) (rds : list i2s_result)
    (stack : list byte) (s0 : State) :
  ready path s0 ->
  total_bytes rds <= INT_MAX ->
  let file := file_content path (os (session path rds stack s0)) in
  data_bytes (decode_header file) = Z.of_nat (sum_list (length <$> delivered rds)) /\
  drop sizeof_WavHeader file = concat (delivered rds).
Proof.
  intros Hready Hmax file.
  destruct (session_header path rds stack s0 Hready) as (Hh & _ & Hd).
  fold file in Hh, Hd. rewrite Hh. split; [|exact Hd].
  destruct (final_header_sizes stack (wrap_int (total_bytes rds))) as (-> & _).
  rewrite wrap_int_idem. apply wrap_int_small.
  pose proof (total_bytes_nonneg rds). unfold INT_MAX, total_bytes in *. lia.
Qed.

Lemma C5_witness :
  let rds := [I2S_ok (zero_block 3); I2S_err; I2S_ok (zero_block 2)] in
  let file := file_content wav_path (os (session wav_path rds zero_stack idle_16k)) in
  ready wav_path idle_16k /\
  total_bytes rds <= INT_MAX /\
  data_bytes (decode_header file) = 5 /\
  drop sizeof_WavHeader file = zero_block 3 ++ zero_block 2.
Proof.
  intros rds file.
  assert (Hr : ready wav_path idle_16k) by (unfold ready; split_and!; reflexivity).
  assert (Hm : total_bytes rds <= INT_MAX) by (vm_compute; discriminate).
  pose proof (C5_data_size_and_payload wav_path rds zero_stack idle_16k Hr Hm) as (A & B).
  split_and!; [exact Hr|exact Hm|exact A|exact B].
Defined.

(** C7: start followed at once by stop.  For every configuration of the
    recorder, a session in which no read delivers a block leaves a file of
    exactly the size of the header, whose [data_bytes] is 0 and whose
    [wav_size] is the size of the header less 8. *)
Theorem C7_start_then_stop_leaves_an_empty_container (path : string)
    (rds : list i2s_result) (stack : list byte) (s0 : State) :
  ready path s0 ->
  forallb no_data rds = true ->
  let file := file_content path (os (session path rds stack s0)) in
  length file = sizeof_WavHeader /\
  data_bytes (decode_header file) = 0 /\
  wav_size (decode_header file) = Z.of_nat sizeof_WavHeader - 8.
Proof.
  intros Hready Hno file.
  destruct (session_header path rds stack s0 Hready) as (Hh & Hl & _).
  fold file in Hh, Hl. rewrite Hh, Hl.
  destruct (final_header_sizes stack (wrap_int (total_bytes rds))) as (-> & ->).
  rewrite total_bytes_payload, (payload_no_data rds Hno).
  split_and!; reflexivity.
Qed.

Lemma C7_witness :
  let file := file_content wav_path (os (session wav_path [] zero_stack idle_16k)) in
  ready wav_path idle_16k /\
  forallb no_data [] = true /\
  length file = 44%nat /\
  data_bytes (decode_header file) = 0 /\
  wav_size (decode_header file) = 36.
Proof.
  intros file.
  assert (Hr : ready wav_path idle_16k) by (unfold ready; split_and!; reflexivity).
  pose proof (C7_start_then_stop_leaves_an_empty_container wav_path [] zero_stack
                idle_16k Hr eq_refl) as (A & B & C).
  split_and!; [exact Hr|exact eq_refl|exact A|exact B|exact C].
Defined.

(** ** The width of the size fields *)

Lemma total_bytes_app (r1 r2 : list i2s_result) :
  total_bytes (r1 ++ r2) = total_bytes r1 + total_bytes r2.
Proof. rewrite !total_bytes_payload, payload_app, length_app. lia. Qed.

Lemma total_bytes_replicate (n : nat) (block : list byte) :
  (0 < length block)%nat ->
  total_bytes (replicate n (I2S_ok block)) = Z.of_nat n * Z.of_nat (length block).
Proof.
  intros Hb. rewrite total_bytes_payload.
  induction n as [|n IH].
  - reflexivity.
  - cbn [replicate]. rewrite payload_cons, length_app, Nat2Z.inj_add, IH.
    cbn [delivers]. apply Nat.ltb_lt in Hb. rewrite Hb. cbn [default from_option id]. lia.
Qed.

Lemma total_bytes_long_recording : total_bytes long_recording = 2147483647.
Proof.
  unfold long_recording.
  rewrite total_bytes_app, total_bytes_replicate.
  - rewrite Z2Nat.id by lia. unfold zero_block. rewrite length_replicate.
    rewrite total_bytes_payload. unfold payload, delivered.
    cbn [omap list_omap delivers]. rewrite length_replicate.
    change (0 <? 1023)%nat with true. cbn [concat]. rewrite app_nil_r, length_replicate.
    change (Z.of_nat 1024) with 1024. change (Z.of_nat 1023) with 1023. reflexivity.
  - unfold zero_block. rewrite length_replicate. lia.
Qed.

Lemma session_sizes (path : string) (rds : list i2s_result) (stack : list byte)
    (s0 : State) :
  ready path s0 ->
  let s := session path rds stack s0 in
  m_data_bytes_written (this s) = wrap_int (total_bytes rds) /\
  data_bytes (decode_header (file_content path (os s))) = wrap_int (total_bytes rds) /\
  wav_size (decode_header (file_content path (os s))) = wrap_int (total_bytes rds + 36).
Proof.
  intros Hready s.
  destruct (session_result path rds stack s0 Hready) as (_ & _ & _ & Hn & _).
  destruct (session_header path rds stack s0 Hready) as (Hh & _).
  fold s in Hn, Hh. rewrite Hh.
  destruct (final_header_sizes stack (wrap_int (total_bytes rds))) as (-> & ->).
  rewrite wrap_int_idem, wrap_int_add_l. split_and!; [exact Hn|reflexivity|reflexivity].
Qed.

(** C10, as the claim has it, fails: a recording of 2^31 - 1 bytes is below
    2^31 bytes, but the [wav_size] left in its file is not its size plus 36;
    the sum does not fit the [int] and the member holds -2147483613. *)
Lemma C10_counterexample :
  let s := session wav_path long_recording zero_stack idle_16k in
  total_bytes long_recording < 2147483648 /\
  wav_size (decode_header (file_content wav_path (os s))) = -2147483613 /\
  ~ (wav_size (decode_header (file_content wav_path (os s)))
     = total_bytes long_recording + 36).
Proof.
  intros s.
  assert (Hr : ready wav_path idle_16k) by (unfold ready; split_and!; reflexivity).
  destruct (session_sizes wav_path long_recording zero_stack idle_16k Hr) as (_ & _ & Hw).
  fold s in Hw. rewrite Hw, total_bytes_long_recording.
  split_and!; [lia|reflexivity|discriminate].
Qed.

(** C10, amended: the counter and the two size members are 32-bit signed
    integers, and what a session leaves in them is the payload size, and the
    payload size plus 36, reduced to that width.  [data_bytes] and the
    counter are exact for every payload below 2^31 bytes; [wav_size] is exact
    only for a payload of at most 2^31 - 37 bytes, and is negative (2^32 too
    small) for the payloads from 2^31 - 36 bytes up to 2^31 - 1; at 2^31 bytes
    [data_bytes] and the counter have wrapped to -2^31. *)
Theorem C10_sizes_are_exact_while_they_fit (path : string) (rds : list i2s_result)
    (stack : list byte) (s0 : State) :
  ready path s0 ->
  let s := session path rds stack s0 in
  let header := decode_header (file_content path (os s)) in
  let total := total_bytes rds in
  m_data_bytes_written (this s) = data_bytes header /\
  (total <= INT_MAX - 36 -> data_bytes header = total /\ wav_size header = total + 36) /\
  (INT_MAX - 36 < total <= INT_MAX ->
     data_bytes header = total /\ wav_size header = total + 36 - 4294967296) /\
  (total = INT_MAX + 1 -> data_bytes header = -2147483648).
Proof.
  intros Hready s header total.
  destruct (session_sizes path rds stack s0 Hready) as (Hn & Hd & Hw).
  fold s in Hn, Hd, Hw. fold header in Hd, Hw. fold total in Hn, Hd, Hw.
  pose proof (total_bytes_nonneg rds) as Hpos. fold total in Hpos.
  rewrite Hn, Hd, Hw. unfold INT_MAX.
  split_and!.
  - reflexivity.
  - intros H. rewrite !wrap_int_small by lia. split; reflexivity.
  - intros H. rewrite wrap_int_small by lia. split; [reflexivity|].
    unfold wrap_int.
    replace (total + 36 + 2147483648) with (total + 36 - 2147483648 + 1 * 4294967296) by lia.
    rewrite Z.mod_add, Z.mod_small by lia. lia.
  - intros ->. reflexivity.
Qed.

Lemma C10_witness :
  let rds := [I2S_ok (zero_block 3); I2S_ok (zero_block 2)] in
  let header := decode_header
                  (file_content wav_path (os (session wav_path rds zero_stack idle_16k))) in
  ready wav_path idle_16k /\
  total_bytes rds <= INT_MAX - 36 /\
  data_bytes header = 5 /\ wav_size header = 41.
Proof.
  intros rds header.
  assert (Hr : ready wav_path idle_16k) by (unfold ready; split_and!; reflexivity).
  assert (Hm : total_bytes rds <= INT_MAX - 36) by (vm_compute; discriminate).
  pose proof (C10_sizes_are_exact_while_they_fit wav_path rds zero_stack idle_16k Hr)
    as (_ & H & _).
  destruct (H Hm) as (A & B).
  split_and!; [exact Hr|exact Hm|exact A|exact B].
Defined.

(** ** The header that is written back *)

(** X7: in the finished file every member of the header but the two sizes is
    what the stack held where the local [header] of [update_wav_header] was
    placed: the stream was opened for writing only, [fread] obtains nothing,
    and the variable is written out as it stood. *)
Lemma session_header_from_stack (path : string) (rds : list i2s_result)
    (stack : list byte) (s0 : State) :
  ready path s0 ->
  let header := decode_header (file_content path (os (session path rds stack s0))) in
  riff_header header = riff_header (decode_header stack) /\
  wave_header header = wave_header (decode_header stack) /\
  fmt_header header = fmt_header (decode_header stack) /\
  fmt_chunk_size header = fmt_chunk_size (decode_header stack) /\
  audio_format header = audio_format (decode_header stack) /\
  num_channels header = num_channels (decode_header stack) /\
  sample_rate header = sample_rate (decode_header stack) /\
  byte_rate header = byte_rate (decode_header stack) /\
  sample_alignment header = sample_alignment (decode_header stack) /\
  bit_depth header = bit_depth (decode_header stack) /\
  data_header header = data_header (decode_header stack).
Proof.
  intros Hready header.
  destruct (session_header path rds stack s0 Hready) as (Hh & _).
  fold header in Hh. rewrite Hh.
  unfold final_header.
  cbn [header_as_stored set_sizes decode_header riff_header wave_header fmt_header
       fmt_chunk_size audio_format num_channels sample_rate byte_rate
       sample_alignment bit_depth data_header].
  unfold int_at, short_at.
  split_and!; try reflexivity; first [apply wrap_int_idem | apply wrap_short_idem].
Qed.

(** C4: the header is written twice, at offset 0, 44 bytes each time, but
    the second write does not repeat the members of the first.  Start and stop
    of a 16 kHz, 16 bit recorder, the stack holding zeros where the local
    [header] is placed: the first record is the placeholder, the second has
    nothing left of it (no "RIFF", sample rate 0, byte rate 0). *)
Theorem C4_second_header_write_loses_the_fields :
  let s := session wav_path [] zero_stack idle_16k in
  let first := encode_header (placeholder_header recorder_16k) in
  let second := encode_header (final_header zero_stack 0) in
  header_writes wav_path (io_trace (os s)) = [first; second] /\
  riff_header (decode_header first) = tag_RIFF /\
  riff_header (decode_header second) <> tag_RIFF /\
  sample_rate (decode_header first) = 16000 /\
  sample_rate (decode_header second) = 0 /\
  byte_rate (decode_header first) = 32000 /\
  byte_rate (decode_header second) = 0 /\
  file_content wav_path (os s) = second.
Proof.
  vm_compute. split_and!; try reflexivity. discriminate.
Qed.

(** The byte rate of the placeholder, for every rate the product fits. *)
Lemma placeholder_byte_rate (r : ESP32AudioRecorder) :
  0 <= m_sample_rate r ->
  m_sample_rate r * 4 <= INT_MAX ->
  byte_rate (placeholder_header r)
    = m_sample_rate r * 1 * bits_value (m_bits_per_sample r) / 8.
Proof.
  intros H0 H1. unfold INT_MAX in H1.
  cbn [placeholder_header byte_rate].
  destruct (m_bits_per_sample r); cbn [bits_value];
    [change (wrap_short 8 ÷ 8) with 1|change (wrap_short 16 ÷ 8) with 2
    |change (wrap_short 24 ÷ 8) with 3|change (wrap_short 32 ÷ 8) with 4];
    rewrite (wrap_int_small (m_sample_rate r * 1)) by lia;
    rewrite wrap_int_small by lia.
  - rewrite Z.div_mul by lia. lia.
  - replace (m_sample_rate r * 1 * 16) with (m_sample_rate r * 2 * 8) by lia.
    rewrite Z.div_mul by lia. lia.
  - replace (m_sample_rate r * 1 * 24) with (m_sample_rate r * 3 * 8) by lia.
    rewrite Z.div_mul by lia. lia.
  - replace (m_sample_rate r * 1 * 32) with (m_sample_rate r * 4 * 8) by lia.
    rewrite Z.div_mul by lia. lia.
Qed.

(** C9: the scenario of the specification, 16000 Hz, 16 bit, one channel,
    a block of 4000 bytes and one of 2000.  The placeholder carries the byte
    rate 32000, the finished file has the size of the header plus 6000 and
    [data_bytes] 6000, but its byte rate is what the stack held (here 0),
    not 32000. *)
Theorem C9_scenario_byte_rate_is_lost :
  let rds := [I2S_ok (zero_block 4000); I2S_ok (zero_block 2000)] in
  let file := file_content wav_path (os (session wav_path rds zero_stack idle_16k)) in
  byte_rate (placeholder_header recorder_16k) = 32000 /\
  Z.of_nat (length file) = Z.of_nat sizeof_WavHeader + 6000 /\
  data_bytes (decode_header file) = 6000 /\
  byte_rate (decode_header file) = 0 /\
  byte_rate (decode_header file) <> 32000.
Proof.
  vm_compute. split_and!; try reflexivity. discriminate.
Qed.

(** ** Stopping *)

(** X12: when the work left to the task takes longer than the delay, the
    caller is back before the sink is closed.  The work is the iteration
    under way (the read, and the write of its block if it brought one), the
    rewriting of the header and the close. *)
Lemma StopRecording_timed_too_early (tm : Timing) (rd : i2s_result)
    (stack : list byte) (path : string) (hdr pl : list byte) (s : State) :
  streaming path hdr pl s ->
  (stop_delay_ms < iteration_ms tm rd + t_header tm + t_close tm)%nat ->
  (StopRecording_timed tm rd stack s).1 = true /\
  is_Some (m_file_handle (this (StopRecording_timed tm rd stack s).2)).
Proof.
  intros (He & _ & _ & _ & Hr & [h Ht]) Hlate.
  unfold StopRecording_timed, StopRecording. rewrite Hr. cbn [negb fst snd].
  split; [reflexivity|].
  cbn [this set_is_recording ESP_LOG set_os m_recording_task_handle]. rewrite Ht.
  cbn [this ESP_LOG set_os m_file_handle].
  match goal with |- context [elapse _ _ ?s0] => set (s1 := s0) end.
  assert (H1 : is_Some (m_file_handle (this s1))).
  { destruct He as [e He]. exists (mkFILE path (length (hdr ++ pl)) false e). exact He. }
  unfold work_left. cbn [elapse].
  set (d1 := iteration_ms tm rd) in *.
  assert (H2 : is_Some (m_file_handle (this (loop_body rd s1)))).
  { destruct H1 as [f Hf]. destruct rd as [block|]; cbn [loop_body]; [|eexists; exact Hf].
    destruct (0 <? length block)%nat; [|eexists; exact Hf].
    destruct (file_fwrite_handle block s1 f Hf) as (f' & Hf' & _).
    exists f'. exact Hf'. }
  destruct (d1 <=? stop_delay_ms)%nat eqn:E1; [|exact H1].
  apply Nat.leb_le in E1.
  assert (H3 : is_Some (m_file_handle (this (finalize_header stack (loop_body rd s1))))).
  { destruct H2 as [f Hf]. unfold finalize_header.
    destruct (update_wav_header_this stack
                (m_data_bytes_written (this (loop_body rd s1))) (loop_body rd s1))
      as (_ & _ & _ & Hh).
    destruct (Hh f Hf) as (f' & Hf' & _). exists f'. exact Hf'. }
  destruct (t_header tm <=? stop_delay_ms - d1)%nat eqn:E2; [|exact H2].
  apply Nat.leb_le in E2.
  destruct (t_close tm <=? stop_delay_ms - d1 - t_header tm)%nat eqn:E3; [|exact H3].
  apply Nat.leb_le in E3. lia.
Qed.

(** C1: [StopRecording] does not wait for the task, it waits 200 ms.  A
    session under way with one buffer stored; when the flag is cleared the
    task is in an [i2s_read] that returns a buffer after 90 ms, storing it
    takes 60 ms, and rewriting the header would take another 60 ms.
    [StopRecording] returns [true] after its 200 ms: the stream is still
    open, no [fclose] has been made, and the file holds 2048 bytes of payload
    behind a header that still says 0. *)
Theorem C1_stop_returns_before_the_file_is_finalized :
  let tm := mkTiming 90 60 60 20 in
  let r := StopRecording_timed tm (I2S_ok (zero_block 1024)) zero_stack recording_16k in
  let file := file_content wav_path (os r.2) in
  r.1 = true /\
  sink_finalized r.2 = false /\
  is_Some (m_file_handle (this r.2)) /\
  length file = (sizeof_WavHeader + 2048)%nat /\
  data_bytes (decode_header file) = 0 /\
  wav_size (decode_header file) = 0.
Proof.
  vm_compute. split_and!; try reflexivity. eexists. reflexivity.
Qed.

(** * Further properties of the code *)

(** ** The header record in memory and in the file *)

Lemma byte_of_Z_of_byte (b : byte) : byte_of_Z (Z_of_byte b) = b.
Proof.
  unfold byte_of_Z, Z_of_byte.
  pose proof (Byte.to_N_bounded b) as Hb.
  rewrite Z.mod_small by lia.
  rewrite N2Z.id, Byte.of_to_N. reflexivity.
Qed.

Lemma Z_of_byte_range (b : byte) : 0 <= Z_of_byte b < 256.
Proof. unfold Z_of_byte. pose proof (Byte.to_N_bounded b). lia. Qed.

Lemma byte_of_Z_mod (x y : Z) : x mod 256 = y mod 256 -> byte_of_Z x = byte_of_Z y.
Proof. unfold byte_of_Z. intros ->. reflexivity. Qed.

Lemma le32_of_bytes (a b c d : byte) :
  le32 (wrap_int (Z_of_byte a + 256 * Z_of_byte b + 65536 * Z_of_byte c
                  + 16777216 * Z_of_byte d)) = [a; b; c; d].
Proof.
  pose proof (Z_of_byte_range a). pose proof (Z_of_byte_range b).
  pose proof (Z_of_byte_range c). pose proof (Z_of_byte_range d).
  set (u := Z_of_byte a + 256 * Z_of_byte b + 65536 * Z_of_byte c
            + 16777216 * Z_of_byte d).
  assert (Hw : wrap_int u = u \/ wrap_int u = u - 4294967296).
  { unfold wrap_int.
    destruct (Z_lt_le_dec u 2147483648).
    - left. rewrite Z.mod_small; lia.
    - right. replace (u + 2147483648) with (u - 2147483648 + 1 * 4294967296) by lia.
      rewrite Z.mod_add, Z.mod_small; lia. }
  transitivity [byte_of_Z (Z_of_byte a); byte_of_Z (Z_of_byte b);
                byte_of_Z (Z_of_byte c); byte_of_Z (Z_of_byte d)];
    [|rewrite !byte_of_Z_of_byte; reflexivity].
  unfold le32.
  rewrite (byte_of_Z_mod (wrap_int u) (Z_of_byte a)),
    (byte_of_Z_mod (wrap_int u / 256) (Z_of_byte b)),
    (byte_of_Z_mod (wrap_int u / 65536) (Z_of_byte c)),
    (byte_of_Z_mod (wrap_int u / 16777216) (Z_of_byte d)); [reflexivity|..];
    destruct Hw as [-> | ->]; unfold u; Z.div_mod_to_equations; lia.
Qed.

Lemma le16_of_bytes (a b : byte) :
  le16 (wrap_short (Z_of_byte a + 256 * Z_of_byte b)) = [a; b].
Proof.
  pose proof (Z_of_byte_range a). pose proof (Z_of_byte_range b).
  set (u := Z_of_byte a + 256 * Z_of_byte b).
  assert (Hw : wrap_short u = u \/ wrap_short u = u - 65536).
  { unfold wrap_short.
    destruct (Z_lt_le_dec u 32768).
    - left. rewrite Z.mod_small; lia.
    - right. replace (u + 32768) with (u - 32768 + 1 * 65536) by lia.
      rewrite Z.mod_add, Z.mod_small; lia. }
  transitivity [byte_of_Z (Z_of_byte a); byte_of_Z (Z_of_byte b)];
    [|rewrite !byte_of_Z_of_byte; reflexivity].
  unfold le16.
  rewrite (byte_of_Z_mod (wrap_short u) (Z_of_byte a)),
    (byte_of_Z_mod (wrap_short u / 256) (Z_of_byte b)); [reflexivity|..];
    destruct Hw as [-> | ->]; unfold u; Z.div_mod_to_equations; lia.
Qed.

(** X1: header written, header read: a header whose integer members have
    values of their types comes back from its 44 bytes member for member,
    whatever follows them in the file. *)
Theorem header_bytes_round_trip (h : WavHeader) (rest : list byte) :
  header_in_range h ->
  length (encode_header h) = 44%nat /\
  decode_header (encode_header h ++ rest) = h.
Proof.
  intros (H1 & H2 & H3 & H4 & H5 & H6 & H7 & H8 & H9).
  split; [apply length_encode_header|].
  rewrite decode_encode_header. unfold header_as_stored.
  rewrite H1, H2, H3, H4, H5, H6, H7, H8, H9.
  destruct h; reflexivity.
Qed.

Lemma header_bytes_round_trip_witness :
  header_in_range (placeholder_header recorder_16k) /\
  decode_header (encode_header (placeholder_header recorder_16k) ++ zero_block 3)
    = placeholder_header recorder_16k.
Proof.
  assert (H : header_in_range (placeholder_header recorder_16k))
    by (unfold header_in_range; split_and!; vm_compute; reflexivity).
  split; [exact H|].
  exact (proj2 (header_bytes_round_trip (placeholder_header recorder_16k) (zero_block 3) H)).
Defined.

(** X2: memory read as a header, header written: any 44 bytes, taken as a
    [WavHeader] and stored again, are the same 44 bytes; no member loses
    a bit. *)
Theorem header_memory_round_trip (l : list byte) :
  (sizeof_WavHeader <= length l)%nat ->
  encode_header (decode_header l) = take sizeof_WavHeader l.
Proof.
  intros Hl. unfold sizeof_WavHeader in *.
  do 44 (destruct l as [|? l]; [cbn [length] in Hl; lia|]).
  unfold decode_header, encode_header, int_at, short_at, u32_at, u16_at, byte_at,
    char4_at, char4_bytes.
  cbn [riff_header wav_size wave_header fmt_header fmt_chunk_size audio_format
       num_channels sample_rate byte_rate sample_alignment bit_depth
       data_header data_bytes lookup list_lookup default from_option Nat.add id].
  rewrite !le32_of_bytes, !le16_of_bytes. reflexivity.
Qed.

Lemma header_memory_round_trip_witness :
  (sizeof_WavHeader <= length (zero_stack ++ zero_block 3))%nat /\
  encode_header (decode_header (zero_stack ++ zero_block 3)) = zero_stack.
Proof.
  assert (H : (sizeof_WavHeader <= length (zero_stack ++ zero_block 3))%nat)
    by (vm_compute; lia).
  split; [exact H|].
  exact (header_memory_round_trip (zero_stack ++ zero_block 3) H).
Defined.

Lemma InstallDriver_state (sr : Z) (bits : i2s_bits_per_sample_t)
    (install_ok set_pin_ok : bool) (s : State) :
  let s' := (InstallDriver sr bits install_ok set_pin_ok s).2 in
  m_sample_rate (this s') = sr /\
  m_bits_per_sample (this s') = bits /\
  m_is_recording (this s') = m_is_recording (this s) /\
  can_create_task (os s') = can_create_task (os s) /\
  can_open (os s') = can_open (os s) /\
  can_malloc (os s') = can_malloc (os s) /\
  sink_faults (os s') = sink_faults (os s).
Proof.
  unfold InstallDriver.
  destruct install_ok; [destruct set_pin_ok|]; cbn; split_and!; reflexivity.
Qed.

(** X3: the configuration reaches the file.  Whatever [InstallDriver] returned
    (it stores rate and width before it calls the driver), the header that
    the task writes when a session starts carries the rate and the width it
    was given, one channel, PCM, a block size of width / 8 bytes and a byte
    rate of rate x block size, with both sizes 0; the file is then 44 bytes
    long.  (The rate is one whose byte rate fits an [int].) *)
Theorem installed_configuration_is_in_the_first_header (sr : Z)
    (bits : i2s_bits_per_sample_t) (install_ok set_pin_ok : bool)
    (path : string) (s : State) :
  ready path s ->
  0 <= sr ->
  sr * 4 <= INT_MAX ->
  let s0 := (InstallDriver sr bits install_ok set_pin_ok s).2 in
  let file := file_content path (os (task_entry (StartRecording path s0).2).2) in
  (InstallDriver sr bits install_ok set_pin_ok s).1 = install_ok && set_pin_ok /\
  length file = 44%nat /\
  decode_header file
    = {| riff_header := tag_RIFF; wav_size := 0; wave_header := tag_WAVE;
         fmt_header := tag_fmt; fmt_chunk_size := 16; audio_format := 1;
         num_channels := 1; sample_rate := sr;
         byte_rate := sr * (bits_value bits / 8);
         sample_alignment := bits_value bits / 8; bit_depth := bits_value bits;
         data_header := tag_data; data_bytes := 0 |}.
Proof.
  intros Hready H0 H1 s0 file. unfold INT_MAX in H1.
  split. { unfold InstallDriver. destruct install_ok, set_pin_ok; reflexivity. }
  destruct (InstallDriver_state sr bits install_ok set_pin_ok s)
    as (Hsr & Hbits & Hr & Ht & Ho & Hm & Hf).
  fold s0 in Hsr, Hbits, Hr, Ht, Ho, Hm, Hf.
  destruct Hready as (R1 & R2 & R3 & R4 & R5).
  assert (Hready0 : ready path s0).
  { unfold ready. rewrite Hr, Ht, Ho, Hm, Hf. split_and!; assumption. }
  destruct (StartRecording_ready path s0 Hready0)
    as (s1 & Hs1 & Hp & Hr1 & Ht1 & _ & Hsr1 & Hbits1 & _ & _ & Ho1 & Hm1 & Hf1).
  assert (Hopen : can_open (os s1) (m_filepath (this s1)) = true)
    by (rewrite Ho1, Hp, Ho; exact R3).
  assert (Hmal : can_malloc (os s1) = true) by (rewrite Hm1, Hm; exact R4).
  assert (Hflt : sink_faults (os s1) = []) by (rewrite Hf1, Hf; exact R5).
  destruct (task_entry_streaming s1 Hr1 Ht1 Hopen Hmal Hflt) as (s2 & Hs2 & Hstr).
  unfold file. rewrite Hs1. cbn [snd]. rewrite Hs2. cbn [snd].
  destruct Hstr as (_ & Hc & _). rewrite Hp in Hc. rewrite Hc.
  split; [rewrite length_app, length_encode_header; reflexivity|].
  rewrite decode_encode_header.
  unfold placeholder_header, header_as_stored.
  cbn [riff_header wav_size wave_header fmt_header fmt_chunk_size audio_format
       num_channels sample_rate byte_rate sample_alignment bit_depth
       data_header data_bytes].
  rewrite Hsr1, Hbits1, Hsr, Hbits.
  destruct bits; cbn [bits_value];
    [change (wrap_short 8) with 8|change (wrap_short 16) with 16
    |change (wrap_short 24) with 24|change (wrap_short 32) with 32];
    [change (8 ÷ 8) with 1; change (8 / 8) with 1
    |change (16 ÷ 8) with 2; change (16 / 8) with 2
    |change (24 ÷ 8) with 3; change (24 / 8) with 3
    |change (32 ÷ 8) with 4; change (32 / 8) with 4];
    rewrite !wrap_int_idem;
    rewrite (wrap_int_small (sr * 1)) by lia;
    rewrite (wrap_int_small (sr * 1 * _)) by lia;
    rewrite (wrap_int_small sr) by lia;
    f_equal; lia.
Qed.

Lemma installed_configuration_is_in_the_first_header_witness :
  let s0 := (InstallDriver 16000 I2S_BITS_PER_SAMPLE_16BIT false true
               (mkState ESP32AudioRecorder_new healthy_world)).2 in
  let file := file_content wav_path (os (task_entry (StartRecording wav_path s0).2).2) in
  ready wav_path (mkState ESP32AudioRecorder_new healthy_world) /\
  0 <= 16000 /\ 16000 * 4 <= INT_MAX /\
  sample_rate (decode_header file) = 16000 /\
  byte_rate (decode_header file) = 32000.
Proof.
  intros s0 file.
  assert (Hr : ready wav_path (mkState ESP32AudioRecorder_new healthy_world))
    by (unfold ready; split_and!; reflexivity).
  assert (H0 : 0 <= 16000) by lia.
  assert (H1 : 16000 * 4 <= INT_MAX) by (vm_compute; discriminate).
  pose proof (installed_configuration_is_in_the_first_header 16000
                I2S_BITS_PER_SAMPLE_16BIT false true wav_path _ Hr H0 H1) as (_ & _ & H).
  fold s0 in H. fold file in H.
  split_and!; [exact Hr|exact H0|exact H1|rewrite H; reflexivity|rewrite H; reflexivity].
Defined.

(** ** The loop *)

Lemma loop_body_counter (rd : i2s_result) (s : State) :
  m_data_bytes_written (this (loop_body rd s))
    = (if no_data rd then m_data_bytes_written (this s)
       else wrap_int (m_data_bytes_written (this s)
                      + Z.of_nat (length (default [] (delivers rd))))).
Proof.
  destruct rd as [block|]; cbn [loop_body no_data delivers]; [|reflexivity].
  destruct (0 <? length block)%nat; cbn [negb]; [|reflexivity].
  cbn [this set_data_bytes_written m_data_bytes_written default from_option id].
  destruct (file_fwrite_this block s) as (_ & -> & _). reflexivity.
Qed.

Lemma total_bytes_cons (rd : i2s_result) (rds : list i2s_result) :
  total_bytes (rd :: rds)
    = Z.of_nat (length (default [] (delivers rd))) + total_bytes rds.
Proof. rewrite !total_bytes_payload, payload_cons, length_app. lia. Qed.

(** X4: the loop counts what it reads, not what it stores, and only the caller
    ends it.  Entered with the flag set, the loop uses up every read it is
    given and still finds the flag set: whatever the reads return and whatever
    the sink does with the writes, the counter has advanced by the bytes
    delivered (as an [int]) and the console has one warning for each read
    without data, nothing else.  Entered with the flag cleared it does not
    read at all. *)
Theorem capture_loop_counts_reads (rds : list i2s_result) (s : State) :
  wrap_int (m_data_bytes_written (this s)) = m_data_bytes_written (this s) ->
  (m_is_recording (this s) = true ->
     m_is_recording (this (capture_loop rds s)) = true /\
     m_data_bytes_written (this (capture_loop rds s))
       = wrap_int (m_data_bytes_written (this s) + total_bytes rds) /\
     console (os (capture_loop rds s))
       = console (os s) ++ replicate (length (filter (fun rd => no_data rd = true) rds))
                                     LogW_read_error) /\
  (m_is_recording (this s) = false -> capture_loop rds s = s).
Proof.
  intros Hint. split.
  - revert s Hint. induction rds as [|rd rds IH]; intros s Hint Hr.
    + cbn. rewrite Z.add_0_r, Hint, app_nil_r. split_and!; [exact Hr|reflexivity|reflexivity].
    + cbn [capture_loop]. rewrite Hr.
      assert (Hr' : m_is_recording (this (loop_body rd s)) = true)
        by (rewrite loop_body_flag; exact Hr).
      assert (Hint' : wrap_int (m_data_bytes_written (this (loop_body rd s)))
                      = m_data_bytes_written (this (loop_body rd s))).
      { rewrite loop_body_counter. destruct (no_data rd); [exact Hint|apply wrap_int_idem]. }
      destruct (IH (loop_body rd s) Hint' Hr') as (A & B & C).
      split_and!; [exact A| |].
      * rewrite B, loop_body_counter, total_bytes_cons.
        destruct (no_data rd) eqn:E.
        -- rewrite (delivers_no_data rd E). cbn [default from_option id length]. f_equal.
        -- rewrite wrap_int_add_l. f_equal. lia.
      * rewrite C, loop_body_console. rewrite filter_cons.
        destruct (no_data rd) eqn:E.
        -- rewrite decide_True by reflexivity. cbn [length replicate].
           rewrite <- app_assoc. reflexivity.
        -- rewrite decide_False by discriminate. rewrite app_nil_r. reflexivity.
  - intros Hr. destruct rds as [|rd rds]; cbn [capture_loop]; [reflexivity|].
    rewrite Hr. reflexivity.
Qed.

Lemma capture_loop_counts_reads_witness :
  let s := (task_entry (StartRecording wav_path (mkState recorder_16k faulty_world)).2).2 in
  let rds := [I2S_ok (zero_block 4); I2S_err; I2S_ok (zero_block 6)] in
  wrap_int (m_data_bytes_written (this s)) = m_data_bytes_written (this s) /\
  m_is_recording (this s) = true /\
  m_data_bytes_written (this (capture_loop rds s)) = 10 /\
  length (file_content wav_path (os (capture_loop rds s))) = (44 + 6)%nat.
Proof.
  intros s rds.
  assert (Hi : wrap_int (m_data_bytes_written (this s)) = m_data_bytes_written (this s))
    by (vm_compute; reflexivity).
  assert (Hr : m_is_recording (this s) = true) by (vm_compute; reflexivity).
  pose proof (capture_loop_counts_reads rds s Hi) as (H & _).
  destruct (H Hr) as (_ & B & _).
  split_and!; [exact Hi|exact Hr| |vm_compute; reflexivity].
  rewrite B. vm_compute. reflexivity.
Defined.

(** ** A session under way *)

Lemma streaming_open_sink (path : string) (hdr pl : list byte) (s : State) :
  streaming path hdr pl s -> open_sink path hdr pl s.
Proof. intros (A & B & C & D & _). split_and!; assumption. Qed.

Lemma placeholder_header_ext (r r' : ESP32AudioRecorder) :
  m_sample_rate r' = m_sample_rate r ->
  m_bits_per_sample r' = m_bits_per_sample r ->
  placeholder_header r' = placeholder_header r.
Proof. intros H1 H2. unfold placeholder_header. rewrite H1, H2. reflexivity. Qed.

Lemma session_under_way (path : string) (rds : list i2s_result) (s0 : State) :
  ready path s0 ->
  streaming path (encode_header (placeholder_header (this s0))) (payload rds)
    (capture_loop rds (task_entry (StartRecording path s0).2).2).
Proof.
  intros Hready.
  destruct (StartRecording_ready path s0 Hready)
    as (s1 & Hs1 & Hp & Hr & Ht & _ & Hsr & Hbits & _ & _ & Ho & Hm & Hf).
  destruct Hready as (_ & _ & Ho0 & Hm0 & Hf0).
  rewrite Hm0 in Hm. rewrite Hf0 in Hf.
  assert (Ho1 : can_open (os s1) (m_filepath (this s1)) = true)
    by (rewrite Ho, Hp; exact Ho0).
  destruct (task_entry_streaming s1 Hr Ht Ho1 Hm Hf) as (s2 & Hs2 & Hstr).
  rewrite Hs1. cbn [snd]. rewrite Hs2. cbn [snd].
  rewrite Hp, (placeholder_header_ext _ _ Hsr Hbits) in Hstr.
  exact (capture_loop_streaming _ _ rds _ _ Hstr).
Qed.

(** X5: until the session is stopped the file does not say what it holds.
    While the task is in its loop on a sink in order, the file is the
    placeholder header followed by every block delivered so far, the counter
    holds their size, and the header in the file still gives 0 for both sizes:
    a file left at this point (power lost, card pulled) declares no payload. *)
Theorem file_of_a_session_under_way (path : string) (rds : list i2s_result) (s0 : State) :
  ready path s0 ->
  let s := capture_loop rds (task_entry (StartRecording path s0).2).2 in
  IsRecording s = true /\
  file_content path (os s)
    = encode_header (placeholder_header (this s0)) ++ concat (delivered rds) /\
  m_data_bytes_written (this s) = wrap_int (total_bytes rds) /\
  data_bytes (decode_header (file_content path (os s))) = 0 /\
  wav_size (decode_header (file_content path (os s))) = 0.
Proof.
  intros Hready s.
  destruct (session_under_way path rds s0 Hready) as (_ & Hc & _ & Hn & Hr & _).
  fold s in Hc, Hn, Hr.
  split_and!.
  - exact Hr.
  - exact Hc.
  - rewrite Hn, total_bytes_payload. reflexivity.
  - rewrite Hc, decode_encode_header. reflexivity.
  - rewrite Hc, decode_encode_header. reflexivity.
Qed.

Lemma file_of_a_session_under_way_witness :
  let s := capture_loop [I2S_ok (zero_block 3)]
             (task_entry (StartRecording wav_path idle_16k).2).2 in
  ready wav_path idle_16k /\
  length (file_content wav_path (os s)) = (44 + 3)%nat /\
  data_bytes (decode_header (file_content wav_path (os s))) = 0.
Proof.
  intros s.
  assert (Hr : ready wav_path idle_16k) by (unfold ready; split_and!; reflexivity).
  pose proof (file_of_a_session_under_way wav_path [I2S_ok (zero_block 3)] idle_16k Hr)
    as (_ & B & _ & D & _).
  fold s in B, D.
  split_and!; [exact Hr| |exact D].
  rewrite B. vm_compute. reflexivity.
Defined.

(** ** The stdio calls of a session *)

Lemma StartRecording_ready_trace (path : string) (s : State) :
  ready path s ->
  io_trace (os (StartRecording path s).2) = io_trace (os s) /\
  console (os (StartRecording path s).2)
    = console (os s) ++ [LogI_recording_started path].
Proof.
  intros (Hr & Ht & _). unfold StartRecording. rewrite Hr. cbn. rewrite Ht.
  split; reflexivity.
Qed.

Lemma task_entry_trace (s : State) :
  can_open (os s) (m_filepath (this s)) = true ->
  can_malloc (os s) = true ->
  sink_faults (os s) = [] ->
  io_trace (os (task_entry s).2)
    = io_trace (os s)
      ++ [Fopen (m_filepath (this s)) true;
          Fwrite (m_filepath (this s)) 0
            (encode_header (placeholder_header (this s))) 44] /\
  console (os (task_entry s).2) = console (os s).
Proof.
  intros Ho Hm Hf.
  unfold task_entry, fopen_wb. rewrite Ho.
  unfold write_wav_header, file_fwrite.
  cbn [this os set_file_handle set_os m_file_handle].
  unfold fwrite, next_fault.
  cbn [sink_faults traced with_disk f_path f_pos f_readable f_error]. rewrite Hf.
  cbn [can_malloc os set_os set_file_handle traced pop_fault with_disk].
  rewrite Hm, length_encode_header.
  cbn [snd os set_data_bytes_written set_file_handle set_os io_trace console
       traced pop_fault with_disk].
  rewrite <- app_assoc. split; reflexivity.
Qed.

Lemma loop_body_trace (path : string) (hdr pl : list byte) (rd : i2s_result) (s : State) :
  open_sink path hdr pl s ->
  open_sink path hdr (pl ++ default [] (delivers rd)) (loop_body rd s) /\
  io_trace (os (loop_body rd s))
    = io_trace (os s)
      ++ block_writes path (length (hdr ++ pl)) (option_list (delivers rd)).
Proof.
  intros ([e He] & Hc & Hf & Hn).
  assert (Hnone : open_sink path hdr (pl ++ []) (ESP_LOG LogW_read_error s) /\
                  io_trace (os (ESP_LOG LogW_read_error s)) = io_trace (os s) ++ []).
  { rewrite !app_nil_r. split; [|reflexivity].
    split_and!; try assumption. exists e. exact He. }
  destruct rd as [block|]; cbn [loop_body delivers]; [|exact Hnone].
  destruct (0 <? length block)%nat; [|exact Hnone].
  cbn [default from_option id option_list block_writes].
  unfold file_fwrite. rewrite He. unfold fwrite, next_fault. rewrite Hf.
  cbn [f_path f_pos f_readable f_error].
  rewrite Hc, firstn_all, write_at_end, Nat.ltb_irrefl, orb_false_r.
  split.
  - unfold open_sink. cbn [this os set_data_bytes_written set_file_handle set_os
      m_file_handle m_data_bytes_written].
    split_and!.
    + exists e. do 2 f_equal. rewrite !length_app. lia.
    + unfold file_content. cbn [disk traced pop_fault with_disk].
      rewrite lookup_insert_eq. cbn [default from_option id].
      rewrite app_assoc. reflexivity.
    + cbn. rewrite Hf. reflexivity.
    + rewrite Hn, wrap_int_add_l, length_app, Nat2Z.inj_add. reflexivity.
  - reflexivity.
Qed.

Lemma capture_loop_trace (path : string) (hdr : list byte) (rds : list i2s_result) :
  forall (pl : list byte) (s : State),
    streaming path hdr pl s ->
    io_trace (os (capture_loop rds s))
      = io_trace (os s) ++ block_writes path (length (hdr ++ pl)) (delivered rds).
Proof.
  induction rds as [|rd rds IH]; intros pl s Hs.
  - cbn. rewrite app_nil_r. reflexivity.
  - cbn [capture_loop].
    pose proof (loop_body_streaming path hdr pl rd s Hs) as Hs'.
    destruct (loop_body_trace path hdr pl rd s (streaming_open_sink _ _ _ _ Hs))
      as (_ & Ht).
    destruct Hs as (_ & _ & _ & _ & Hr & _). rewrite Hr.
    rewrite (IH _ _ Hs'), Ht, <- app_assoc. f_equal.
    unfold delivered. cbn [omap list_omap].
    destruct (delivers rd) as [b|]; cbn [default from_option id option_list block_writes].
    + cbn [app]. do 2 f_equal. rewrite !length_app. lia.
    + rewrite app_nil_r. reflexivity.
Qed.

Lemma task_exit_trace (path : string) (stack : list byte) (pos : nat) (e : bool) (s : State) :
  m_file_handle (this s) = Some (mkFILE path pos false e) ->
  sink_faults (os s) = [] ->
  io_trace (os (task_exit stack s))
    = io_trace (os s)
      ++ [Fseek path 0 true; Fread path sizeof_WavHeader 0; Fseek path 0 true;
          Fwrite path 0
            (encode_header (final_header stack (m_data_bytes_written (this s)))) 44;
          Fclose path true] /\
  console (os (task_exit stack s)) = console (os s) ++ [LogI_file_saved] /\
  sink_faults (os (task_exit stack s)) = [].
Proof.
  intros He Hf.
  unfold task_exit, update_wav_header, file_fseek. rewrite He.
  unfold fseek_set, next_fault. rewrite Hf.
  unfold file_fread.
  cbn [this os set_file_handle set_os m_file_handle fread f_readable f_path f_pos f_error].
  cbn [app length drop].
  unfold file_fseek.
  cbn [this os set_file_handle set_os m_file_handle].
  unfold fseek_set, next_fault.
  cbn [sink_faults traced pop_fault tail]. rewrite Hf.
  cbn [tail f_path f_pos f_readable f_error].
  unfold file_fwrite.
  cbn [this os set_file_handle set_os m_file_handle].
  unfold fwrite, next_fault.
  cbn [sink_faults traced pop_fault tail f_path f_pos f_readable f_error].
  rewrite Hf. cbn [tail].
  unfold file_fclose.
  cbn [this os set_file_handle set_os m_file_handle].
  unfold fclose, next_fault.
  cbn [sink_faults traced pop_fault with_disk tail f_path].
  rewrite Hf. cbn [tail].
  fold (final_header stack (m_data_bytes_written (this s))).
  rewrite length_encode_header.
  cbn [os this ESP_LOG set_recording_task_handle set_file_handle set_os
       logged traced pop_fault with_disk io_trace console sink_faults tail].
  rewrite <- !app_assoc. split_and!; [reflexivity|reflexivity|].
  rewrite Hf. reflexivity.
Qed.

(** X6: the stdio calls of a session on a sink in order are, in this order:
    the [fopen]; the write of the placeholder at offset 0; one write per block
    delivered, each at the end of the file; a seek to 0; an [fread] of 44
    bytes that obtains none; a seek to 0; the second write of 44 bytes at
    offset 0; the [fclose].  So the header record is written exactly twice, and
    the attempt to read the first one back never yields a byte. *)
Theorem stdio_calls_of_a_session (path : string) (rds : list i2s_result)
    (stack : list byte) (s0 : State) :
  ready path s0 ->
  io_trace (os (session path rds stack s0))
    = io_trace (os s0)
      ++ [Fopen path true;
          Fwrite path 0 (encode_header (placeholder_header (this s0))) 44]
      ++ block_writes path 44 (delivered rds)
      ++ [Fseek path 0 true; Fread path 44 0; Fseek path 0 true;
          Fwrite path 0 (encode_header (final_header stack (wrap_int (total_bytes rds)))) 44;
          Fclose path true].
Proof.
  intros Hready.
  destruct (StartRecording_ready_trace path s0 Hready) as (Ht0 & _).
  destruct (StartRecording_ready path s0 Hready)
    as (s1 & Hs1 & Hp & Hr & Ht & _ & Hsr & Hbits & _ & _ & Ho & Hm & Hf).
  rewrite Hs1 in Ht0. cbn [snd] in Ht0.
  destruct Hready as (_ & _ & Ho0 & Hm0 & Hf0).
  rewrite Hm0 in Hm. rewrite Hf0 in Hf.
  assert (Ho1 : can_open (os s1) (m_filepath (this s1)) = true)
    by (rewrite Ho, Hp; exact Ho0).
  destruct (task_entry_trace s1 Ho1 Hm Hf) as (Ht1 & _).
  destruct (task_entry_streaming s1 Hr Ht Ho1 Hm Hf) as (s2 & Hs2 & Hstr).
  rewrite Hs2 in Ht1. cbn [snd] in Ht1.
  rewrite Hp in Hstr, Ht1. rewrite (placeholder_header_ext _ _ Hsr Hbits) in Hstr, Ht1.
  pose proof (capture_loop_trace _ _ rds _ _ Hstr) as Ht2.
  pose proof (capture_loop_streaming _ _ rds _ _ Hstr) as Hloop.
  cbn [app] in Hloop. rewrite app_nil_r, length_encode_header in Ht2.
  unfold session. rewrite Hs1, Hs2.
  set (s3 := capture_loop rds s2) in *.
  destruct Hloop as ([e He] & Hc & Hf3 & Hn & Hr3 & [h Ht3]).
  unfold StopRecording. rewrite Hr3. cbn [negb snd].
  cbn [this set_is_recording ESP_LOG set_os m_recording_task_handle].
  rewrite Ht3.
  match goal with |- context [task_exit stack ?s] => set (s4 := s) end.
  destruct (task_exit_trace path stack _ e s4 He Hf3) as (Ht4 & _).
  cbn [os ESP_LOG set_os io_trace logged].
  rewrite Ht4.
  change (io_trace (os s4)) with (io_trace (os s3)).
  change (m_data_bytes_written (this s4)) with (m_data_bytes_written (this s3)).
  rewrite Ht2, Ht1, Ht0, Hn, <- total_bytes_payload, <- !app_assoc.
  reflexivity.
Qed.

Lemma stdio_calls_of_a_session_witness :
  ready wav_path idle_16k /\
  io_trace (os (session wav_path [I2S_err; I2S_ok (zero_block 2)] zero_stack idle_16k))
    = [Fopen wav_path true;
       Fwrite wav_path 0 (encode_header (placeholder_header recorder_16k)) 44;
       Fwrite wav_path 44 (zero_block 2) 2;
       Fseek wav_path 0 true; Fread wav_path 44 0; Fseek wav_path 0 true;
       Fwrite wav_path 0 (encode_header (final_header zero_stack 2)) 44;
       Fclose wav_path true].
Proof.
  assert (Hr : ready wav_path idle_16k) by (unfold ready; split_and!; reflexivity).
  split; [exact Hr|].
  exact (stdio_calls_of_a_session wav_path [I2S_err; I2S_ok (zero_block 2)]
           zero_stack idle_16k Hr).
Defined.

(** ** What the code leaves of the environment *)

Lemma same_env_refl (w : World) : same_env w w.
Proof. unfold same_env. split_and!; auto. Qed.

Lemma same_env_trans (w1 w2 w3 : World) :
  same_env w1 w2 -> same_env w2 w3 -> same_env w1 w3.
Proof.
  intros (A1 & A2 & A3 & A4) (B1 & B2 & B3 & B4).
  unfold same_env. rewrite B1, B2, B3, A1, A2, A3. split_and!; auto.
Qed.

Lemma pop_fault_env (w w' : World) :
  can_open w' = can_open w -> can_create_task w' = can_create_task w ->
  can_malloc w' = can_malloc w -> sink_faults w' = tail (sink_faults w) ->
  same_env w w'.
Proof.
  intros A B C D. unfold same_env. split_and!; try assumption.
  intros E. rewrite D, E. reflexivity.
Qed.

Lemma file_fwrite_env (buf : list byte) (s : State) :
  same_env (os s) (os (file_fwrite buf s)).
Proof.
  unfold file_fwrite. destruct (m_file_handle (this s)) as [f|]; [|apply same_env_refl].
  unfold fwrite. destruct (next_fault (os s)); apply pop_fault_env; reflexivity.
Qed.

Lemma file_fseek_env (off : nat) (s : State) :
  same_env (os s) (os (file_fseek off s)).
Proof.
  unfold file_fseek. destruct (m_file_handle (this s)) as [f|]; [|apply same_env_refl].
  unfold fseek_set. destruct (next_fault (os s)); apply pop_fault_env; reflexivity.
Qed.

Lemma file_fread_env (want : nat) (s : State) :
  same_env (os s) (os (file_fread want s).2).
Proof.
  unfold file_fread. destruct (m_file_handle (this s)) as [f|]; [|apply same_env_refl].
  unfold fread. destruct (f_readable f); unfold same_env; cbn; split_and!; auto.
Qed.

Lemma file_fclose_env (s : State) :
  same_env (os s) (os (file_fclose s)).
Proof.
  unfold file_fclose. destruct (m_file_handle (this s)) as [f|]; [|apply same_env_refl].
  unfold fclose. destruct (next_fault (os s)); apply pop_fault_env; reflexivity.
Qed.

Lemma ESP_LOG_env (l : log_line) (s : State) :
  same_env (os s) (os (ESP_LOG l s)).
Proof. unfold same_env. cbn. split_and!; auto. Qed.

Lemma loop_body_env (rd : i2s_result) (s : State) :
  same_env (os s) (os (loop_body rd s)).
Proof.
  destruct rd as [block|]; cbn [loop_body]; [|apply ESP_LOG_env].
  destruct (0 <? length block)%nat; [|apply ESP_LOG_env].
  exact (file_fwrite_env block s).
Qed.

Lemma capture_loop_env (rds : list i2s_result) :
  forall s, same_env (os s) (os (capture_loop rds s)).
Proof.
  induction rds as [|rd rds IH]; intros s; cbn [capture_loop]; [apply same_env_refl|].
  destruct (m_is_recording (this s)); [|apply same_env_refl].
  eapply same_env_trans; [apply loop_body_env|apply IH].
Qed.

Lemma task_entry_env (s : State) : same_env (os s) (os (task_entry s).2).
Proof.
  unfold task_entry, fopen_wb.
  destruct (can_open (os s) (m_filepath (this s)));
    [|unfold same_env; cbn; split_and!; auto].
  match goal with |- context [write_wav_header ?x] => set (s1 := x) end.
  assert (H0 : same_env (os s) (os s1)) by (unfold same_env; cbn; split_and!; auto).
  pose proof (file_fwrite_env (encode_header (placeholder_header (this s1))) s1) as H1.
  fold (write_wav_header s1) in H1.
  pose proof (same_env_trans _ _ _ H0 H1) as H2.
  destruct (can_malloc (os (write_wav_header s1))); cbn [snd]; [exact H2|].
  pose proof (ESP_LOG_env LogE_alloc_failed (write_wav_header s1)) as H3.
  pose proof (file_fclose_env (ESP_LOG LogE_alloc_failed (write_wav_header s1))) as H4.
  exact (same_env_trans _ _ _ H2 (same_env_trans _ _ _ H3 H4)).
Qed.

Lemma task_exit_env (stack : list byte) (s : State) :
  same_env (os s) (os (task_exit stack s)).
Proof.
  unfold task_exit, update_wav_header.
  pose proof (file_fseek_env 0 s) as H1.
  set (s1 := file_fseek 0 s) in *.
  pose proof (file_fread_env sizeof_WavHeader s1) as H2.
  destruct (file_fread sizeof_WavHeader s1) as [got s2]. cbn [snd] in H2.
  pose proof (file_fseek_env 0 s2) as H3.
  set (s3 := file_fseek 0 s2) in *.
  match goal with |- context [file_fwrite ?b s3] => set (buf := b) end.
  pose proof (file_fwrite_env buf s3) as H4.
  pose proof (file_fclose_env (file_fwrite buf s3)) as H5.
  pose proof (same_env_trans _ _ _ H1 (same_env_trans _ _ _ H2 (same_env_trans _ _ _ H3
           (same_env_trans _ _ _ H4 H5)))) as H6.
  destruct H6 as (A & B & C & D). unfold same_env. cbn. split_and!; assumption.
Qed.

Lemma session_env (path : string) (rds : list i2s_result) (stack : list byte) (s0 : State) :
  same_env (os s0) (os (session path rds stack s0)).
Proof.
  unfold session.
  assert (H1 : same_env (os s0) (os (StartRecording path s0).2)).
  { unfold StartRecording. destruct (m_is_recording (this s0)); [apply ESP_LOG_env|].
    cbn. destruct (can_create_task (os s0)); unfold same_env; cbn; split_and!; auto. }
  destruct (StartRecording path s0) as [started s1]. cbn [snd] in H1.
  destruct started; [|exact H1].
  pose proof (task_entry_env s1) as H2.
  destruct (task_entry s1) as [looping s2]. cbn [snd] in H2.
  destruct looping; [|exact (same_env_trans _ _ _ H1 H2)].
  pose proof (capture_loop_env rds s2) as H3.
  set (s3 := capture_loop rds s2) in *.
  eapply same_env_trans; [exact H1|]. eapply same_env_trans; [exact H2|].
  eapply same_env_trans; [exact H3|].
  unfold StopRecording. destruct (m_is_recording (this s3)); cbn [negb snd];
    [|apply ESP_LOG_env].
  cbn [this set_is_recording ESP_LOG set_os m_recording_task_handle].
  destruct (m_recording_task_handle (this s3));
    [|unfold same_env; cbn; split_and!; auto].
  match goal with |- context [task_exit stack ?s] =>
    pose proof (task_exit_env stack s) as H4 end.
  destruct H4 as (A & B & C & D). unfold same_env. cbn in *. split_and!; assumption.
Qed.

(** X8: starting again on the same path.  When a session has been stopped, a
    second start is accepted, and the file it leaves is the file the second
    session would have left on its own: no byte of the first recording
    remains, however long it was. *)
Theorem restart_truncates_the_file (path : string) (rds1 rds2 : list i2s_result)
    (stack1 stack2 : list byte) (s0 : State) :
  ready path s0 ->
  let s1 := session path rds1 stack1 s0 in
  (StartRecording path s1).1 = true /\
  file_content path (os (session path rds2 stack2 s1))
    = file_content path (os (session path rds2 stack2 s0)) /\
  drop sizeof_WavHeader (file_content path (os (session path rds2 stack2 s1)))
    = concat (delivered rds2).
Proof.
  intros Hready s1.
  destruct (session_result path rds1 stack1 s0 Hready) as (_ & _ & Hr1 & _).
  destruct (session_env path rds1 stack1 s0) as (E1 & E2 & E3 & E4).
  fold s1 in Hr1, E1, E2, E3, E4.
  assert (Hready1 : ready path s1).
  { destruct Hready as (_ & R2 & R3 & R4 & R5). unfold ready.
    rewrite E1, E2, E3. split_and!; auto. }
  destruct (StartRecording_ready path s1 Hready1) as (s & Hs & _).
  destruct (session_result path rds2 stack2 s1 Hready1) as (Hc1 & _).
  destruct (session_result path rds2 stack2 s0 Hready) as (Hc0 & _).
  destruct (session_header path rds2 stack2 s1 Hready1) as (_ & _ & Hd).
  split_and!; [rewrite Hs; reflexivity|rewrite Hc1, Hc0; reflexivity|exact Hd].
Qed.

Lemma restart_truncates_the_file_witness :
  let s1 := session wav_path [I2S_ok (zero_block 5)] zero_stack idle_16k in
  ready wav_path idle_16k /\
  (StartRecording wav_path s1).1 = true /\
  drop sizeof_WavHeader
    (file_content wav_path (os (session wav_path [I2S_ok (zero_block 2)] zero_stack s1)))
    = zero_block 2.
Proof.
  intros s1.
  assert (Hr : ready wav_path idle_16k) by (unfold ready; split_and!; reflexivity).
  pose proof (restart_truncates_the_file wav_path [I2S_ok (zero_block 5)]
                [I2S_ok (zero_block 2)] zero_stack zero_stack idle_16k Hr) as (A & _ & C).
  split_and!; [exact Hr|exact A|exact C].
Defined.

(** ** The failure paths of start *)

(** X9: no buffer.  When [malloc] fails the task ends before its loop: the
    file has been created and holds the placeholder alone (44 bytes, both
    sizes 0), the stream has been closed, the flag is cleared and the failure
    is on the console; but [m_file_handle] is left pointing at the closed
    stream and the task handle is left set.  A [StopRecording] after that is
    rejected. *)
Theorem allocation_failure_leaves_a_bare_header (path : string) (s : State) :
  m_is_recording (this s) = false ->
  can_create_task (os s) = true ->
  can_open (os s) path = true ->
  can_malloc (os s) = false ->
  sink_faults (os s) = [] ->
  let r := task_entry (StartRecording path s).2 in
  r.1 = false /\
  IsRecording r.2 = false /\
  file_content path (os r.2) = encode_header (placeholder_header (this s)) /\
  io_trace (os r.2)
    = io_trace (os s)
      ++ [Fopen path true;
          Fwrite path 0 (encode_header (placeholder_header (this s))) 44;
          Fclose path true] /\
  console (os r.2)
    = console (os s) ++ [LogI_recording_started path; LogE_alloc_failed] /\
  m_file_handle (this r.2) = Some (mkFILE path 44 false false) /\
  is_Some (m_recording_task_handle (this r.2)) /\
  forall bg, (StopRecording bg r.2).1 = false.
Proof.
  intros Hr Ht Ho Hm Hf r. unfold r.
  destruct s as [[sr bits fp fh th rec n] [d co ct cm sf tr cons tc]].
  cbn in Hr, Ht, Ho, Hm, Hf. subst rec ct cm sf.
  unfold StartRecording, task_entry, fopen_wb, write_wav_header, file_fwrite,
    file_fclose, fwrite, fclose, next_fault, IsRecording, StopRecording, file_content.
  cbn -[insert lookup encode_header placeholder_header write_at].
  rewrite Ho.
  cbn -[insert lookup encode_header placeholder_header write_at].
  rewrite !lookup_insert_eq. cbn [default from_option id].
  rewrite firstn_all, length_encode_header.
  unfold write_at. rewrite take_0, drop_nil, app_nil_r. cbn [app].
  rewrite <- !app_assoc. cbn [app].
  unfold placeholder_header. cbn [m_sample_rate m_bits_per_sample].
  split_and!; try reflexivity. eexists; reflexivity.
Qed.

Lemma allocation_failure_leaves_a_bare_header_witness :
  let s := mkState recorder_16k
             (mkWorld ∅ (fun _ => true) true false [] [] [] 0) in
  let r := task_entry (StartRecording wav_path s).2 in
  m_is_recording (this s) = false /\ can_create_task (os s) = true /\
  can_open (os s) wav_path = true /\ can_malloc (os s) = false /\
  sink_faults (os s) = [] /\
  r.1 = false /\
  length (file_content wav_path (os r.2)) = 44%nat.
Proof.
  intros s r.
  pose proof (allocation_failure_leaves_a_bare_header wav_path s
                eq_refl eq_refl eq_refl eq_refl eq_refl) as (A & _ & C & _).
  fold r in A, C.
  split_and!; [reflexivity|reflexivity|reflexivity|reflexivity|reflexivity|exact A|].
  rewrite C. apply length_encode_header.
Defined.

(** X10: no task.  When the task cannot be created [StartRecording] returns
    [false] with the flag cleared and without any stdio call, but not without
    trace: the path and the counter of the previous session have been
    overwritten. *)
Theorem failed_start_overwrites_path_and_counter (path : string) (s : State) :
  m_is_recording (this s) = false ->
  can_create_task (os s) = false ->
  let r := StartRecording path s in
  r.1 = false /\
  IsRecording r.2 = false /\
  m_filepath (this r.2) = path /\
  m_data_bytes_written (this r.2) = 0 /\
  m_file_handle (this r.2) = m_file_handle (this s) /\
  m_recording_task_handle (this r.2) = m_recording_task_handle (this s) /\
  io_trace (os r.2) = io_trace (os s) /\
  disk (os r.2) = disk (os s) /\
  tasks_created (os r.2) = tasks_created (os s) /\
  console (os r.2) = console (os s) ++ [LogE_task_create_failed].
Proof.
  intros Hr Ht r. unfold r, StartRecording. rewrite Hr. cbn. rewrite Ht. cbn.
  split_and!; reflexivity.
Qed.

Lemma failed_start_overwrites_path_and_counter_witness :
  let s0 := session wav_path [I2S_ok (zero_block 5)] zero_stack idle_16k in
  let s := mkState (this s0) (mkWorld (disk (os s0)) (fun _ => true) false true [] [] [] 1) in
  m_is_recording (this s) = false /\
  can_create_task (os s) = false /\
  m_data_bytes_written (this s) = 5 /\
  (StartRecording "/sdcard/next.wav" s).1 = false /\
  m_filepath (this (StartRecording "/sdcard/next.wav" s).2) = "/sdcard/next.wav" /\
  m_data_bytes_written (this (StartRecording "/sdcard/next.wav" s).2) = 0.
Proof.
  intros s0 s.
  assert (Hr : m_is_recording (this s) = false) by (vm_compute; reflexivity).
  pose proof (failed_start_overwrites_path_and_counter "/sdcard/next.wav" s Hr eq_refl)
    as (A & _ & C & D & _).
  split_and!; [exact Hr|reflexivity|vm_compute; reflexivity|exact A|exact C|exact D].
Defined.

(** ** Stopping in time *)

Lemma open_sink_stopping (path : string) (hdr pl : list byte) (s : State) :
  open_sink path hdr pl s ->
  open_sink path hdr pl (set_is_recording false (ESP_LOG LogI_stopping s)).
Proof. intros H. exact H. Qed.

(** X11: when the work left to the task fits into the 200 ms, [StopRecording]
    does return on a closed sink: the iteration under way has stored its block,
    the header has been rewritten with the size that includes it, the stream
    has been closed and dropped, and the flag is cleared. *)
Theorem StopRecording_timed_in_time (tm : Timing) (rd : i2s_result)
    (stack : list byte) (path : string) (hdr pl : list byte) (s : State) :
  streaming path hdr pl s ->
  length hdr = sizeof_WavHeader ->
  (Nat.min (t_read tm) read_timeout_ms + t_write tm + t_header tm + t_close tm
   <= stop_delay_ms)%nat ->
  let r := StopRecording_timed tm rd stack s in
  let block := default [] (delivers rd) in
  r.1 = true /\
  IsRecording r.2 = false /\
  sink_finalized r.2 = true /\
  file_content path (os r.2)
    = encode_header (final_header stack (wrap_int (Z.of_nat (length (pl ++ block)))))
      ++ pl ++ block.
Proof.
  intros Hs Hl Htime r block.
  pose proof (open_sink_stopping path hdr pl s (streaming_open_sink _ _ _ _ Hs)) as Ho.
  set (s2 := set_is_recording false (ESP_LOG LogI_stopping s)) in *.
  destruct Hs as (_ & _ & _ & _ & Hr & [h Ht]).
  unfold r, StopRecording_timed, StopRecording. rewrite Hr. cbn [negb].
  fold s2.
  change (m_recording_task_handle (this s2)) with (m_recording_task_handle (this s)).
  rewrite Ht. cbn [fst snd].
  unfold work_left. cbn [elapse].
  set (d1 := iteration_ms tm rd) in *.
  assert (Hd1 : (d1 <= Nat.min (t_read tm) read_timeout_ms + t_write tm)%nat)
    by (unfold d1, iteration_ms; destruct (no_data rd); lia).
  assert (E1 : (d1 <=? stop_delay_ms)%nat = true) by (apply Nat.leb_le; lia).
  assert (E2 : (t_header tm <=? stop_delay_ms - d1)%nat = true) by (apply Nat.leb_le; lia).
  assert (E3 : (t_close tm <=? stop_delay_ms - d1 - t_header tm)%nat = true)
    by (apply Nat.leb_le; lia).
  rewrite E1, E2, E3.
  match goal with |- context [close_and_leave (finalize_header stack ?x)] =>
    set (s3 := x);
    change (close_and_leave (finalize_header stack s3)) with (task_exit stack s3) end.
  assert (Ho3 : open_sink path hdr (pl ++ block) s3).
  { destruct (loop_body_trace path hdr pl rd s2 Ho) as (H & _).
    unfold s3. destruct H as ([e He] & Hc & Hf & Hn). fold block in He, Hc, Hn.
    unfold open_sink. split_and!; [exists e; exact He|exact Hc|exact Hf|exact Hn]. }
  destruct Ho3 as ([e He] & Hc & Hf & Hn).
  destruct (task_exit_result path hdr (pl ++ block) stack _ e s3 He Hc Hl Hf)
    as (Hc5 & He5 & Ht5 & Hr5 & Hn5 & Hfin).
  rewrite Hn in Hc5.
  unfold IsRecording.
  split_and!; [reflexivity| |exact Hfin|exact Hc5].
  cbn [this ESP_LOG set_os]. rewrite Hr5. unfold s3.
  rewrite loop_body_flag. reflexivity.
Qed.

Lemma StopRecording_timed_in_time_witness :
  let tm := mkTiming 90 40 40 20 in
  let r := StopRecording_timed tm (I2S_ok (zero_block 1024)) zero_stack recording_16k in
  streaming wav_path (encode_header (placeholder_header recorder_16k))
    (zero_block 1024) recording_16k /\
  length (encode_header (placeholder_header recorder_16k)) = sizeof_WavHeader /\
  (Nat.min (t_read tm) read_timeout_ms + t_write tm + t_header tm + t_close tm
   <= stop_delay_ms)%nat /\
  r.1 = true /\ sink_finalized r.2 = true.
Proof.
  intros tm r.
  assert (Hs : streaming wav_path (encode_header (placeholder_header recorder_16k))
                 (zero_block 1024) recording_16k).
  { unfold streaming. split_and!.
    - exists false. vm_compute. reflexivity.
    - vm_compute. reflexivity.
    - vm_compute. reflexivity.
    - vm_compute. reflexivity.
    - vm_compute. reflexivity.
    - exists 0%nat. vm_compute. reflexivity. }
  assert (Hl : length (encode_header (placeholder_header recorder_16k)) = sizeof_WavHeader)
    by (vm_compute; reflexivity).
  assert (Ht : (Nat.min (t_read tm) read_timeout_ms + t_write tm + t_header tm + t_close tm
                <= stop_delay_ms)%nat) by (vm_compute; lia).
  pose proof (StopRecording_timed_in_time tm (I2S_ok (zero_block 1024)) zero_stack
                wav_path _ _ recording_16k Hs Hl Ht) as (A & _ & C & _).
  split_and!; [exact Hs|exact Hl|exact Ht|exact A|exact C].
Defined.

(** ** The volume buttons of the board *)

Lemma volume_click_values (v : Z) :
  (volume_up_OnClick v).1 = Z.min (v + 10) 100 /\
  (volume_down_OnClick v).1 = Z.max (v - 10) 0.
Proof.
  unfold volume_up_OnClick, volume_down_OnClick. cbn [fst snd]. split.
  - destruct (100 <? v + 10) eqn:E; [apply Z.ltb_lt in E|apply Z.ltb_ge in E]; lia.
  - destruct (v - 10 <? 0) eqn:E; [apply Z.ltb_lt in E|apply Z.ltb_ge in E]; lia.
Qed.

(** X13: from a volume between 0 and 100 a click asks for a volume between
    0 and 100: "up" for the volume plus 10 but at most 100, "down" for the
    volume less 10 but at least 0, and the number shown is the volume asked
    for.  Each handler guards one end only.  For any reported volume whose
    sum with 10 is an [int], "up" asks for min (v + 10, 100), which is below 0
    when the codec reports less than -10; for any reported volume whose
    difference with 10 is an [int], "down" asks for max (v - 10, 0), which is
    above 100 when the codec reports more than 110. *)
Theorem volume_click_stays_in_range (v : Z) :
  (volume_up_defined v ->
     (volume_up_OnClick v).1 = Z.min (v + 10) 100 /\
     (volume_up_OnClick v).2 = Notify_volume (volume_up_OnClick v).1 /\
     (v < -10 -> (volume_up_OnClick v).1 < 0)) /\
  (volume_down_defined v ->
     (volume_down_OnClick v).1 = Z.max (v - 10) 0 /\
     (volume_down_OnClick v).2 = Notify_volume (volume_down_OnClick v).1 /\
     (110 < v -> 100 < (volume_down_OnClick v).1)) /\
  (0 <= v <= 100 ->
     volume_up_defined v /\ volume_down_defined v /\
     0 <= (volume_up_OnClick v).1 <= 100 /\
     0 <= (volume_down_OnClick v).1 <= 100).
Proof.
  destruct (volume_click_values v) as (Hu & Hd).
  split_and!.
  - intros _. split; [exact Hu|]. split; [reflexivity|]. rewrite Hu. lia.
  - intros _. split; [exact Hd|]. split; [reflexivity|]. rewrite Hd. lia.
  - intros Hv. rewrite Hu, Hd. unfold volume_up_defined, volume_down_defined, INT_MAX.
    lia.
Qed.

Lemma volume_click_stays_in_range_witness :
  0 <= 95 <= 100 /\
  volume_up_defined (-50) /\
  volume_down_defined 500 /\
  (volume_up_OnClick 95).1 = 100 /\
  (volume_down_OnClick 95).1 = 85 /\
  (volume_up_OnClick (-50)).1 = -40 /\
  (volume_down_OnClick 500).1 = 490.
Proof.
  assert (H : 0 <= 95 <= 100) by lia.
  assert (Hu : volume_up_defined (-50)) by (unfold volume_up_defined, INT_MAX; lia).
  assert (Hd : volume_down_defined 500) by (unfold volume_down_defined, INT_MAX; lia).
  pose proof (volume_click_stays_in_range 95) as (K1 & K2 & K3).
  destruct (K3 H) as (U & D & _).
  destruct (K1 U) as (A & _). destruct (K2 D) as (B & _).
  pose proof (volume_click_stays_in_range (-50)) as (L1 & _).
  destruct (L1 Hu) as (C & _).
  pose proof (volume_click_stays_in_range 500) as (_ & M2 & _).
  destruct (M2 Hd) as (E & _).
  split; [exact H|]. split; [exact Hu|]. split; [exact Hd|].
  split; [exact A|]. split; [exact B|]. split; [exact C|exact E].
Defined.

(** X14: up and down are inverse only away from the ends of the range: "up"
    then "down" gives the volume back when it was at most 90, and 90 when it
    was above; "down" then "up" gives it back when it was at least 10, and 10
    when it was below.  (Each click is taken to start from the volume the one
    before asked for.) *)
Theorem volume_up_then_down (v : Z) :
  0 <= v <= 100 ->
  (volume_down_OnClick (volume_up_OnClick v).1).1 = Z.min v 90 /\
  (volume_up_OnClick (volume_down_OnClick v).1).1 = Z.max v 10.
Proof.
  intros Hv.
  destruct (volume_click_values v) as (-> & ->).
  destruct (volume_click_values (Z.min (v + 10) 100)) as (_ & ->).
  destruct (volume_click_values (Z.max (v - 10) 0)) as (-> & _).
  lia.
Qed.

Lemma volume_up_then_down_witness :
  0 <= 95 <= 100 /\
  (volume_down_OnClick (volume_up_OnClick 95).1).1 = 90 /\
  (volume_up_OnClick (volume_down_OnClick 95).1).1 = 95.
Proof.
  assert (H : 0 <= 95 <= 100) by lia.
  destruct (volume_up_then_down 95 H) as (A & B).
  split; [exact H|split; [exact A|exact B]].
Defined.

(** ** The SD card of the board *)

(** X15: what [InitializeSdCard] leaves on a new board.  The mount is attempted
    only when the bus could be initialized; the board holds a card exactly
    when bus and mount both succeeded; a failed mount is followed by freeing
    the bus, a failed bus initialization by nothing more. *)
Theorem InitializeSdCard_outcome (bus_ret mount_ret : Z) (card : nat) :
  let b := InitializeSdCard bus_ret mount_ret card Board_new in
  (sd_card_ b = Some card <-> bus_ret = ESP_OK /\ mount_ret = ESP_OK) /\
  (sd_card_ b = None <-> bus_ret <> ESP_OK \/ mount_ret <> ESP_OK) /\
  (bus_ret <> ESP_OK -> sd_calls b = [Spi_bus_initialize bus_ret]) /\
  (bus_ret = ESP_OK -> mount_ret <> ESP_OK ->
     sd_calls b = [Spi_bus_initialize bus_ret; Sdmmc_mount mount_ret; Spi_bus_free]) /\
  (bus_ret = ESP_OK -> mount_ret = ESP_OK ->
     sd_calls b = [Spi_bus_initialize bus_ret; Sdmmc_mount mount_ret;
                   Sdmmc_card_print_info]).
Proof.
  unfold InitializeSdCard, ESP_OK.
  destruct (bus_ret =? 0) eqn:Eb; [apply Z.eqb_eq in Eb|apply Z.eqb_neq in Eb];
    cbn [negb];
    (destruct (mount_ret =? 0) eqn:Em; [apply Z.eqb_eq in Em|apply Z.eqb_neq in Em]);
    cbn [negb]; try destruct (mount_ret =? ESP_FAIL); cbn;
    split_and!; try split; try (intros; reflexivity); try tauto; try discriminate;
    try (intros [? ?]; contradiction); try (intros [?|?]; contradiction);
    intros; contradiction.
Qed.

Lemma InitializeSdCard_outcome_witness :
  let b := InitializeSdCard ESP_OK ESP_FAIL 7 Board_new in
  ESP_OK = ESP_OK /\ ESP_FAIL <> ESP_OK /\
  sd_calls b = [Spi_bus_initialize ESP_OK; Sdmmc_mount ESP_FAIL; Spi_bus_free].
Proof.
  intros b.
  assert (H1 : ESP_OK = ESP_OK) by reflexivity.
  assert (H2 : ESP_FAIL <> ESP_OK) by discriminate.
  pose proof (InitializeSdCard_outcome ESP_OK ESP_FAIL 7) as (_ & _ & _ & K & _).
  split_and!; [exact H1|exact H2|exact (K H1 H2)].
Defined.

(** X16: over the life of a board, from [InitializeSdCard] on a new board to the
    destructor: the card is unmounted exactly as often as it was mounted, but
    the bus is freed once more than it was acquired unless bus and mount both
    succeeded: the destructor frees it without regard to what
    [InitializeSdCard] did (twice in all after a failed mount, once after a
    failed initialization of the bus). *)
Theorem board_frees_the_bus_regardless (bus_ret mount_ret : Z) (card : nat) :
  let calls := sd_calls (Board_delete (InitializeSdCard bus_ret mount_ret card Board_new)) in
  length (List.filter is_unmount calls) = length (List.filter is_mounted calls) /\
  length (List.filter is_bus_acquired calls) = (if bus_ret =? ESP_OK then 1%nat else 0%nat) /\
  length (List.filter is_bus_free calls)
    = (if (bus_ret =? ESP_OK) && negb (mount_ret =? ESP_OK) then 2%nat else 1%nat) /\
  (length (List.filter is_bus_free calls) = length (List.filter is_bus_acquired calls)
   <-> bus_ret = ESP_OK /\ mount_ret = ESP_OK).
Proof.
  unfold Board_delete, InitializeSdCard, ESP_OK, ESP_FAIL.
  destruct (bus_ret =? 0) eqn:Eb; destruct (mount_ret =? 0) eqn:Em;
    try destruct (mount_ret =? -1);
    cbn -[Z.eqb]; unfold ESP_OK; rewrite ?Eb, ?Em; cbn -[Z.eqb];
    apply Z.eqb_eq in Eb || apply Z.eqb_neq in Eb;
    apply Z.eqb_eq in Em || apply Z.eqb_neq in Em;
    (split_and!; [reflexivity|reflexivity|reflexivity|]);
    (split; [intros H; first [discriminate H | split; assumption]
            |intros [H1 H2]; first [reflexivity | contradiction]]).
Qed.

Lemma board_frees_the_bus_regardless_witness :
  let calls := sd_calls (Board_delete (InitializeSdCard ESP_OK ESP_FAIL 7 Board_new)) in
  length (List.filter is_bus_free calls) = 2%nat /\
  length (List.filter is_bus_acquired calls) = 1%nat /\
  ~ (ESP_OK = ESP_OK /\ ESP_FAIL = ESP_OK).
Proof.
  intros calls.
  pose proof (board_frees_the_bus_regardless ESP_OK ESP_FAIL 7) as (_ & A & B & C).
  fold calls in A, B, C.
  split; [exact B|split; [exact A|]].
  intros H. apply C in H. rewrite A, B in H. discriminate H.
Defined.

Lemma session_header_from_stack_witness :
  let stack := encode_header (placeholder_header
                 (mkRecorder 8000 I2S_BITS_PER_SAMPLE_8BIT EmptyString None None false 0)) in
  let header := decode_header
                  (file_content wav_path (os (session wav_path [] stack idle_16k))) in
  ready wav_path idle_16k /\
  sample_rate header = 8000 /\
  bit_depth header = 8.
Proof.
  intros stack header.
  assert (Hr : ready wav_path idle_16k) by (unfold ready; split_and!; reflexivity).
  pose proof (session_header_from_stack wav_path [] stack idle_16k Hr)
    as (_ & _ & _ & _ & _ & _ & A & _ & _ & B & _).
  fold header in A, B.
  split_and!; [exact Hr| |].
  - rewrite A. vm_compute. reflexivity.
  - rewrite B. vm_compute. reflexivity.
Defined.

Lemma StopRecording_timed_too_early_witness :
  let tm := mkTiming 100 400 150 20 in
  streaming wav_path (encode_header (placeholder_header recorder_16k))
    (zero_block 1024) recording_16k /\
  (stop_delay_ms < iteration_ms tm (I2S_ok []) + t_header tm + t_close tm)%nat /\
  (StopRecording_timed tm (I2S_ok []) zero_stack recording_16k).1 = true /\
  is_Some (m_file_handle (this (StopRecording_timed tm (I2S_ok []) zero_stack
                                  recording_16k).2)).
Proof.
  intros tm.
  assert (Hs : streaming wav_path (encode_header (placeholder_header recorder_16k))
                 (zero_block 1024) recording_16k).
  { unfold streaming. split_and!.
    - exists false. vm_compute. reflexivity.
    - vm_compute. reflexivity.
    - vm_compute. reflexivity.
    - vm_compute. reflexivity.
    - vm_compute. reflexivity.
    - exists 0%nat. vm_compute. reflexivity. }
  assert (Ht : (stop_delay_ms < iteration_ms tm (I2S_ok []) + t_header tm
                                + t_close tm)%nat) by (vm_compute; lia).
  destruct (StopRecording_timed_too_early tm (I2S_ok []) zero_stack wav_path _ _
              recording_16k Hs Ht) as (A & B).
  split_and!; [exact Hs|exact Ht|exact A|exact B].
Defined.

(** A read that brings no data is followed by no write: with 50 ms for the
    read, 50 ms for the header and 50 ms for the close the task is done
    within the delay, however slow a write would have been. *)
Lemma StopRecording_timed_failed_read_costs_no_write :
  let tm := mkTiming 50 400 50 50 in
  let r := StopRecording_timed tm I2S_err zero_stack recording_16k in
  r.1 = true /\ sink_finalized r.2 = true.
Proof.
  vm_compute. split; reflexivity.
Qed.
